(** * Notification dispatcher of the Reroute admin panel

    A shallow embedding of [reroute-admin/functions/src/index.ts]: the three
    Firestore triggers ([sendCommunicationNotification],
    [sendBookingStatusNotification], [sendFarmhouseStatusNotification]) and
    the callable [sendManualNotification].

    The handlers are asynchronous functions whose awaits are sequential, so
    each one is a computation in a small monad that threads the log of
    external calls (Firestore reads, Firestore updates, FCM sends) and
    propagates thrown values; [try ... catch] is a combinator of that monad.
    The outside world (contents of the [users] collection, behaviour of the
    transport, faults of the store) is a record the computation reads.

    Left out: [console.log] and [console.error], which no caller observes,
    and the per-token [responses] array of a [BatchResponse], which the
    handlers never read.  The [users] collection is a finite map from
    document id to document; a snapshot lists it in the order of
    [map_to_list], so the order of the tokens in a payload is that of the
    model, not necessarily Firestore's. *)

From stdpp Require Import gmap strings list fin_maps.
From stdpp Require Import pretty.
From Stdlib Require Import ZArith.

Open Scope string_scope.
Open Scope list_scope.

(** ** Document fields *)

(** A field of a Firestore document as the TypeScript code sees it: absent
    ([undefined]), stored as [null], or holding a value. *)
Inductive field (A : Type) : Type :=
| Undefined
| Null
| Val (a : A).
Arguments Undefined {A}.
Arguments Null {A}.
Arguments Val {A} a.

#[global] Instance field_eq_dec {A} `{EqDecision A} : EqDecision (field A).
Proof. solve_decision. Defined.

(** JavaScript truthiness, per type of the value held. *)
Class Truthy (A : Type) := truthyVal : A -> bool.

#[global] Instance truthy_string : Truthy string :=
  fun s => negb (String.eqb s "").
#[global] Instance truthy_bool : Truthy bool := fun b => b.
(** Arrays and objects are always truthy. *)
#[global] Instance truthy_list {A} : Truthy (list A) := fun _ => true.

Definition truthy {A} `{Truthy A} (f : field A) : bool :=
  match f with
  | Val a => truthyVal a
  | _ => false
  end.

(** [a || b] on two fields. *)
Definition orField {A} `{Truthy A} (a b : field A) : field A :=
  if truthy a then a else b.

(** [a || d] where [d] is a literal of the value type. *)
Definition orDefault {A} `{Truthy A} (a : field A) (d : A) : A :=
  match a with
  | Val x => if truthyVal x then x else d
  | _ => d
  end.

(** [a === b] on two fields holding values of one type. *)
Definition strictEq {A} `{EqDecision A} (a b : field A) : bool :=
  bool_decide (a = b).

(** The string held by a field that a guard has found truthy. *)
Definition theString (f : field string) : string :=
  match f with
  | Val s => s
  | _ => ""
  end.

(** [String(v)] on an optional boolean. *)
Definition String_of (f : field bool) : string :=
  match f with
  | Undefined => "undefined"
  | Null => "null"
  | Val true => "true"
  | Val false => "false"
  end.

(** ** Documents *)

(** A document of the [users] collection.  The dispatcher reads [fcmToken]
    and [role]; [is_active] is written and read by the admin pages only. *)
Record userData := {
  fcmToken : field string;
  role : field string;
  is_active : field bool
}.

(** A document of the [communications] collection. *)
Record communicationData := {
  recipientType : field string;
  recipientId : field string;
  recipientRole : field string;
  title : field string;
  message : field string;
  type : field string
}.

(** A document of the [bookings] collection (the fields the trigger reads). *)
Record bookingData := {
  bookingStatus : field string;
  paymentStatus : field string;
  userId : field string;
  user_id : field string
}.

(** A document of the [farmhouses] collection (the fields the trigger reads). *)
Record farmhouseData := {
  isApproved : field bool;
  ownerId : field string;
  owner_id : field string;
  name : field string;
  farmhouse_name : field string
}.

(** ** Messages handed to the transport *)

Record notificationPart := {
  n_title : string;
  n_body : string
}.

Record androidConfig := {
  priority : string;
  a_sound : string;
  channelId : string
}.

Record apnsConfig := {
  aps_sound : string;
  badge : Z
}.

(** The [android] and [apns] blocks are the same literal in all four
    payloads. *)
Definition androidLiteral : androidConfig :=
  {| priority := "high"; a_sound := "default";
     channelId := "reroute_notifications" |}.

Definition apnsLiteral : apnsConfig :=
  {| aps_sound := "default"; badge := 1%Z |}.

(** [data] objects are key/value lists in the order of the object literal. *)
Definition dataMap := list (string * field string).

(** [admin.messaging.MulticastMessage] *)
Record multicastMessage := {
  tokens : list string;
  mc_notification : notificationPart;
  mc_data : dataMap;
  mc_android : androidConfig;
  mc_apns : apnsConfig
}.

(** [admin.messaging.Message] addressed to one token *)
Record tokenMessage := {
  token : string;
  notification : notificationPart;
  data : dataMap;
  android : androidConfig;
  apns : apnsConfig
}.

(** [BatchResponse]: the counts the handlers read. *)
Record batchResponse := {
  successCount : Z;
  failureCount : Z
}.

(** The object passed to [snap.ref.update]; a key that the literal does not
    have is [None].  [notificationSentAt] is the [serverTimestamp()]
    sentinel, so only its presence is recorded. *)
Record updateData := {
  notificationSent : bool;
  notificationSentAt : option unit;
  deliveryStatus : option batchResponse;
  notificationError : option string
}.

(** ** Thrown values *)

(** Codes of [functions.https.HttpsError] ([FunctionsErrorCode]). *)
Inductive errorCode :=
| unauthenticated
| permission_denied
| invalid_argument
| internal.

Inductive thrown :=
| JsError (msg : string)                      (* an instance of [Error] *)
| HttpsError (code : errorCode) (msg : string) (* a subclass of [Error] *)
| NotAnError.                                 (* any other thrown value *)

(** [error instanceof Error ? error.message : 'Unknown error'] *)
Definition messageOf (error : thrown) : string :=
  match error with
  | JsError m => m
  | HttpsError _ m => m
  | NotAnError => "Unknown error"
  end.

Inductive outcome (A : Type) : Type :=
| Returned (a : A)
| Threw (e : thrown).
Arguments Returned {A} a.
Arguments Threw {A} e.

(** ** External calls *)

Inductive effect :=
| UsersGet                            (* collection('users').get() *)
| UsersDocGet (id : string)           (* collection('users').doc(id).get() *)
| UsersWhereRoleGet (r : string)      (* ...where('role','==',r).get() *)
| SendEachForMulticast (m : multicastMessage)
| Send (m : tokenMessage)
| Update (d : updateData).            (* snap.ref.update(d) *)

Definition isLookup (e : effect) : bool :=
  match e with
  | UsersGet | UsersDocGet _ | UsersWhereRoleGet _ => true
  | _ => false
  end.

Definition isSend (e : effect) : bool :=
  match e with
  | SendEachForMulticast _ | Send _ => true
  | _ => false
  end.

Definition isWrite (e : effect) : bool :=
  match e with
  | Update _ => true
  | _ => false
  end.

Definition trace := list effect.

Definition lookups (t : trace) : nat := length (List.filter isLookup t).
Definition sends (t : trace) : nat := length (List.filter isSend t).
Definition writes (t : trace) : nat := length (List.filter isWrite t).

(** The world a handler runs in.  Every external call may reject: a read
    when [readFault] says so, the transport and the update as their
    functions decide. *)
Record world := {
  users : gmap string userData;
  readFault : effect -> option thrown;
  multicast : multicastMessage -> outcome batchResponse;
  deliver : tokenMessage -> outcome unit;
  store : updateData -> outcome unit;
  now : string                         (* new Date().toISOString() *)
}.

(** ** The monad of handlers *)

Definition M (A : Type) : Type := world -> trace -> outcome A * trace.

Definition ret {A} (a : A) : M A := fun _ t => (Returned a, t).

Definition bind {A B} (m : M A) (k : A -> M B) : M B :=
  fun w t =>
    match m w t with
    | (Returned a, t') => k a w t'
    | (Threw e, t') => (Threw e, t')
    end.

Definition throw {A} (e : thrown) : M A := fun _ t => (Threw e, t).

Definition tryCatch {A} (m : M A) (handler : thrown -> M A) : M A :=
  fun w t =>
    match m w t with
    | (Returned a, t') => (Returned a, t')
    | (Threw e, t') => handler e w t'
    end.

(** An external call: logged, then answered by the world. *)
Definition call {A} (e : effect) (answer : world -> outcome A) : M A :=
  fun w t => (answer w, t ++ [e]).

Definition ask {A} (f : world -> A) : M A := fun w t => (Returned (f w), t).

Declare Scope handler_scope.
Delimit Scope handler_scope with handler.
Notation "x <- m ;; k" := (bind m (fun x => k))
  (at level 100, m at next level, right associativity) : handler_scope.
Notation "m ;;; k" := (bind m (fun _ => k))
  (at level 100, right associativity) : handler_scope.
Notation "'try' m 'catch' h" := (tryCatch m h)
  (at level 100, m at level 200, h at level 200) : handler_scope.
Open Scope handler_scope.

Definition run {A} (m : M A) (w : world) : outcome A * trace := m w [].

(** *** Firestore and FCM primitives *)

Definition answerRead {A} (e : effect) (a : world -> A) (w : world) : outcome A :=
  match readFault w e with
  | Some err => Threw err
  | None => Returned (a w)
  end.

(** [collection('users').get()]: the documents of the collection. *)
Definition usersGet : M (list (string * userData)) :=
  call UsersGet (answerRead UsersGet (fun w => map_to_list (users w))).

(** [collection('users').doc(id).get()]: [data()] of the snapshot, which is
    [undefined] ([None]) when there is no such document. *)
Definition usersDocGet (id : string) : M (option userData) :=
  call (UsersDocGet id) (answerRead (UsersDocGet id) (fun w => users w !! id)).

(** [collection('users').where('role', '==', r).get()] *)
Definition usersWhereRoleGet (r : string) : M (list (string * userData)) :=
  call (UsersWhereRoleGet r)
    (answerRead (UsersWhereRoleGet r)
       (fun w => List.filter (fun doc => strictEq (role doc.2) (Val r))
                   (map_to_list (users w)))).

Definition sendEachForMulticast (payload : multicastMessage) : M batchResponse :=
  call (SendEachForMulticast payload) (fun w => multicast w payload).

Definition send (payload : tokenMessage) : M unit :=
  call (Send payload) (fun w => deliver w payload).

Definition update (d : updateData) : M unit :=
  call (Update d) (fun w => store w d).

(** [userDoc.data()?.fcmToken] *)
Definition fcmTokenOf (userDoc : option userData) : field string :=
  match userDoc with
  | Some d => fcmToken d
  | None => Undefined
  end.

(** [docs.map(doc => doc.data().fcmToken).filter(token => token)], typed
    [string[]] by the source: the truthy tokens, in the order of the docs. *)
Definition truthyTokens (docs : list (string * userData)) : list string :=
  map theString (List.filter truthy (map (fun doc => fcmToken doc.2) docs)).

(** ** sendCommunicationNotification *)

Definition resolveRecipientTokens (communication : communicationData)
  : M (list string) :=
  if strictEq (recipientType communication) (Val "all_users") then
    usersSnapshot <- usersGet ;;
    ret (truthyTokens usersSnapshot)
  else if strictEq (recipientType communication) (Val "specific_user")
          && truthy (recipientId communication) then
    userDoc <- usersDocGet (theString (recipientId communication)) ;;
    let fcmToken := fcmTokenOf userDoc in
    if truthy fcmToken then ret [theString fcmToken] else ret []
  else if strictEq (recipientType communication) (Val "role")
          && truthy (recipientRole communication) then
    usersSnapshot <- usersWhereRoleGet (theString (recipientRole communication)) ;;
    ret (truthyTokens usersSnapshot)
  else ret [].

Definition communicationPayload (communicationId : string)
    (communication : communicationData) (recipientTokens : list string)
    (timestamp : string) : multicastMessage :=
  {| tokens := recipientTokens;
     mc_notification :=
       {| n_title := orDefault (title communication) "New Message";
          n_body := orDefault (message communication) "" |};
     mc_data :=
       [("communicationId", Val communicationId);
        ("type", Val (orDefault (type communication) "general"));
        ("timestamp", Val timestamp)];
     mc_android := androidLiteral;
     mc_apns := apnsLiteral |}.

Definition deliveredUpdate (response : batchResponse) : updateData :=
  {| notificationSent := true;
     notificationSentAt := Some tt;
     deliveryStatus :=
       Some {| successCount := successCount response;
               failureCount := failureCount response |};
     notificationError := None |}.

Definition errorUpdate (error : thrown) : updateData :=
  {| notificationSent := false;
     notificationSentAt := None;
     deliveryStatus := None;
     notificationError := Some (messageOf error) |}.

(** The handler returns the transport's response, or [null] ([None]). *)
Definition sendCommunicationNotification (communicationId : string)
    (communication : communicationData) : M (option batchResponse) :=
  try
    (recipientTokens <- resolveRecipientTokens communication ;;
     if (length recipientTokens =? 0)%nat then ret None
     else
       timestamp <- ask now ;;
       let payload :=
         communicationPayload communicationId communication
           recipientTokens timestamp in
       response <- sendEachForMulticast payload ;;
       (update (deliveredUpdate response) ;;;
        ret (Some response)))
  catch (fun error =>
    update (errorUpdate error) ;;;
    ret None).

(** ** sendBookingStatusNotification *)

(** [switch (after.bookingStatus)]: a matching [case] assigns [title] and
    [body]; there is no [default], so any other value leaves them as they
    are. *)
Definition bookingStatusSwitch (status : field string)
    (current : string * string) : string * string :=
  if strictEq status (Val "confirmed") then
    ("Booking Confirmed", "Your booking has been confirmed!")
  else if strictEq status (Val "cancelled") then
    ("Booking Cancelled", "Your booking has been cancelled.")
  else if strictEq status (Val "completed") then
    ("Booking Completed", "Thank you for using our service!")
  else current.

(** [switch (after.paymentStatus)], likewise without a [default]. *)
Definition paymentStatusSwitch (status : field string)
    (current : string * string) : string * string :=
  if strictEq status (Val "paid") then
    ("Payment Successful", "Your payment has been received.")
  else if strictEq status (Val "failed") then
    ("Payment Failed", "Your payment could not be processed.")
  else if strictEq status (Val "refunded") then
    ("Payment Refunded", "Your payment has been refunded.")
  else current.

(** The [title] and [body] variables when the payload is built. *)
Definition bookingText (before after : bookingData) : string * string :=
  let title := "Booking Update" in
  let body := "" in
  if negb (strictEq (bookingStatus before) (bookingStatus after)) then
    bookingStatusSwitch (bookingStatus after) (title, body)
  else if negb (strictEq (paymentStatus before) (paymentStatus after)) then
    paymentStatusSwitch (paymentStatus after) (title, body)
  else (title, body).

Definition bookingPayload (bookingId : string) (before after : bookingData)
    (fcmToken : string) : tokenMessage :=
  {| token := fcmToken;
     notification :=
       {| n_title := (bookingText before after).1;
          n_body := (bookingText before after).2 |};
     data :=
       [("bookingId", Val bookingId);
        ("type", Val "booking_update");
        ("bookingStatus", bookingStatus after);
        ("paymentStatus", paymentStatus after)];
     android := androidLiteral;
     apns := apnsLiteral |}.

(** The handler returns [true] ([Some true]) after a send and [null]
    ([None]) otherwise. *)
Definition sendBookingStatusNotification (bookingId : string)
    (before after : bookingData) : M (option bool) :=
  if strictEq (bookingStatus before) (bookingStatus after)
     && strictEq (paymentStatus before) (paymentStatus after) then
    ret None
  else
    try
      (let userId := orField (userId after) (user_id after) in
       if negb (truthy userId) then ret None
       else
         userDoc <- usersDocGet (theString userId) ;;
         let fcmToken := fcmTokenOf userDoc in
         if negb (truthy fcmToken) then ret None
         else
           (send (bookingPayload bookingId before after (theString fcmToken)) ;;;
            ret (Some true)))
    catch (fun error => ret None).

(** ** sendFarmhouseStatusNotification *)

(** [after.name || after.farmhouse_name || 'Your farmhouse'] *)
Definition farmhouseNameOf (after : farmhouseData) : string :=
  orDefault (orField (name after) (farmhouse_name after)) "Your farmhouse".

(** The [title] and [body] constants; the body is a template literal that
    starts with the listing's name. *)
Definition farmhouseText (after : farmhouseData) : string * string :=
  let farmhouseName := farmhouseNameOf after in
  let title :=
    if truthy (isApproved after) then "Farmhouse Approved!"
    else "Farmhouse Status Update" in
  let body :=
    if truthy (isApproved after)
    then farmhouseName +:+ " has been approved and is now live!"
    else farmhouseName +:+ " status has been updated." in
  (title, body).

Definition farmhousePayload (farmhouseId : string) (after : farmhouseData)
    (fcmToken : string) : tokenMessage :=
  {| token := fcmToken;
     notification :=
       {| n_title := (farmhouseText after).1;
          n_body := (farmhouseText after).2 |};
     data :=
       [("farmhouseId", Val farmhouseId);
        ("type", Val "farmhouse_update");
        ("isApproved", Val (String_of (isApproved after)))];
     android := androidLiteral;
     apns := apnsLiteral |}.

Definition sendFarmhouseStatusNotification (farmhouseId : string)
    (before after : farmhouseData) : M (option bool) :=
  if strictEq (isApproved before) (isApproved after) then ret None
  else
    try
      (let ownerId := orField (ownerId after) (owner_id after) in
       if negb (truthy ownerId) then ret None
       else
         ownerDoc <- usersDocGet (theString ownerId) ;;
         let fcmToken := fcmTokenOf ownerDoc in
         if negb (truthy fcmToken) then ret None
         else
           (send (farmhousePayload farmhouseId after (theString fcmToken)) ;;;
            ret (Some true)))
    catch (fun error => ret None).

(** ** sendManualNotification *)

(** [context.auth]: [undefined] for an unauthenticated call, otherwise the
    caller's [uid]. *)
Definition callableContext := option string.

(** The [data] argument of the callable when the client sent an object;
    a primitive has none of the four properties and reads as the record of
    four [Undefined].  The argument itself is a [field manualData]: [Null]
    when the client sent no payload. *)
Record manualData := {
  md_title : field string;
  md_body : field string;
  md_tokens : field (list string);
  md_data : field dataMap
}.

Record manualResult := {
  success : bool;
  r_successCount : Z;
  r_failureCount : Z
}.

(** [userDoc.data()?.role] *)
Definition roleOf (userDoc : option userData) : field string :=
  match userDoc with
  | Some d => role d
  | None => Undefined
  end.

Definition theList {A} (f : field (list A)) : list A :=
  match f with
  | Val l => l
  | _ => []
  end.

Definition manualPayload (d : manualData) : multicastMessage :=
  {| tokens := theList (md_tokens d);
     mc_notification :=
       {| n_title := theString (md_title d);
          n_body := theString (md_body d) |};
     mc_data := orDefault (md_data d) [];
     mc_android := androidLiteral;
     mc_apns := apnsLiteral |}.

(** The [TypeError] that [const { title, body, tokens, ... } = data] throws
    on [null] and on [undefined].  It is an [Error] and not an
    [HttpsError]; its text is the engine's (V8's is given). *)
Definition destructuringError (data : field manualData) : thrown :=
  JsError
    (match data with
     | Null =>
       "Cannot destructure property 'title' of 'data' as it is null."
     | _ =>
       "Cannot destructure property 'title' of 'data' as it is undefined."
     end).

Definition sendManualNotification (data : field manualData)
    (auth : callableContext) : M manualResult :=
  match auth with
  | None => throw (HttpsError unauthenticated "User must be authenticated")
  | Some uid =>
    userDoc <- usersDocGet uid ;;
    if negb (strictEq (roleOf userDoc) (Val "admin")) then
      throw (HttpsError permission_denied "Only admins can send notifications")
    else
      match data with
      | Val d =>
        if negb (truthy (md_title d)) || negb (truthy (md_body d))
           || negb (truthy (md_tokens d))
           || (length (theList (md_tokens d)) =? 0)%nat then
          throw (HttpsError invalid_argument
                   "Missing required fields: title, body, or tokens")
        else
          try
            (response <- sendEachForMulticast (manualPayload d) ;;
             ret {| success := true;
                    r_successCount := successCount response;
                    r_failureCount := failureCount response |})
          catch (fun error =>
            throw (HttpsError internal "Failed to send notification"))
      | _ => throw (destructuringError data)
      end
  end.

(** ** Worlds and runs used in the statements *)

(** No Firestore read rejects. *)
Definition noReadFault (w : world) : Prop := forall e, readFault w e = None.

(** Every [update] is accepted by the store. *)
Definition storeAccepts (w : world) : Prop := forall d, store w d = Returned tt.

(** An [update] call of the log that the store accepted. *)
Definition isCompletedWrite (w : world) (e : effect) : bool :=
  match e with
  | Update d => match store w d with Returned _ => true | Threw _ => false end
  | _ => false
  end.

Definition completedWrites (w : world) (t : trace) : nat :=
  length (List.filter (isCompletedWrite w) t).

(** The documents of the [users] collection, and those with a given role. *)
Definition allUsers (w : world) : list (string * userData) :=
  map_to_list (users w).

Definition usersWithRole (r : string) (w : world) : list (string * userData) :=
  List.filter (fun doc => strictEq (role doc.2) (Val r)) (allUsers w).

(** The recipients that the specification's selector table names: the
    selectors [active_users_only], [all_owners] and [farmhouse_owners] are
    the specification's, to be compared with [resolveRecipientTokens]. *)
Definition specRecipients (selector : string) (id : string) (w : world)
  : list (string * userData) :=
  if String.eqb selector "all_users" then allUsers w
  else if String.eqb selector "active_users_only" then
    List.filter (fun doc => strictEq (is_active doc.2) (Val true)) (allUsers w)
  else if String.eqb selector "all_owners"
          || String.eqb selector "farmhouse_owners" then
    usersWithRole "owner" w
  else if String.eqb selector "specific_user" then
    match users w !! id with
    | Some u => [(id, u)]
    | None => []
    end
  else [].

(** *** The users of the specification's broadcast scenario *)

Definition user1 : userData :=
  {| fcmToken := Val "tA"; role := Undefined; is_active := Val true |}.
Definition user2 : userData :=
  {| fcmToken := Val "tB"; role := Undefined; is_active := Val false |}.
Definition user3 : userData :=
  {| fcmToken := Null; role := Undefined; is_active := Val true |}.

Definition scenarioUsers : gmap string userData :=
  <["1" := user1]> (<["2" := user2]> (<["3" := user3]> ∅)).

(** A transport that reports success for every token it is given. *)
Definition allDelivered (payload : multicastMessage) : outcome batchResponse :=
  Returned {| successCount := Z.of_nat (length (tokens payload));
              failureCount := 0%Z |}.

Definition scenarioWorld : world :=
  {| users := scenarioUsers;
     readFault := fun _ => None;
     multicast := allDelivered;
     deliver := fun _ => Returned tt;
     store := fun _ => Returned tt;
     now := "2024-01-01T00:00:00.000Z" |}.

Definition broadcast (selector : string) : communicationData :=
  {| recipientType := Val selector;
     recipientId := Undefined;
     recipientRole := Undefined;
     title := Val "Hi";
     message := Val "Hello";
     type := Undefined |}.

(** What the [catch] block of [sendCommunicationNotification] returns for
    the thrown value [e]: [null] once its update is accepted; a rejected
    update rejects the handler. *)
Definition caught (w : world) (e : thrown) : outcome (option batchResponse) :=
  match store w (errorUpdate e) with
  | Returned _ => Returned None
  | Threw e' => Threw e'
  end.

(** A token is stored when some user document holds it as a non-empty
    [fcmToken]. *)
Definition storedToken (w : world) (tok : string) : Prop :=
  tok <> "" /\ exists uid u, users w !! uid = Some u /\ fcmToken u = Val tok.

(** A world with an empty [users] collection where every call succeeds. *)
Definition emptyWorld : world :=
  {| users := ∅;
     readFault := fun _ => None;
     multicast := allDelivered;
     deliver := fun _ => Returned tt;
     store := fun _ => Returned tt;
     now := "2024-01-01T00:00:00.000Z" |}.

(** The message of a thrown value that is an instance of [Error]. *)
Definition errorMessage (e : thrown) : option string :=
  match e with
  | JsError m => Some m
  | HttpsError _ m => Some m
  | NotAnError => None
  end.

(** A transport whose batched call throws. *)
Definition transportDown (payload : multicastMessage) : outcome batchResponse :=
  Threw (JsError "messaging/server-unavailable").

Definition outageWorld : world :=
  {| users := scenarioUsers;
     readFault := fun _ => None;
     multicast := transportDown;
     deliver := fun _ => Threw (JsError "messaging/server-unavailable");
     store := fun _ => Returned tt;
     now := "2024-01-01T00:00:00.000Z" |}.

(** Bookings of user [uid] with the given statuses. *)
Definition booking (status payment uid : string) : bookingData :=
  {| bookingStatus := Val status;
     paymentStatus := Val payment;
     userId := Val uid;
     user_id := Undefined |}.

(** Titles of the payment-status messages. *)
Definition paymentTitles : list string :=
  ["Payment Successful"; "Payment Failed"; "Payment Refunded"].

(** A listing named [n], owned by user [uid]. *)
Definition farmhouse (approved : bool) (n uid : string) : farmhouseData :=
  {| isApproved := Val approved;
     ownerId := Val uid;
     owner_id := Undefined;
     name := Val n;
     farmhouse_name := Undefined |}.

(** The scenario's users and an administrator. *)
Definition adminUser : userData :=
  {| fcmToken := Undefined; role := Val "admin"; is_active := Val true |}.

Definition staffWorld : world :=
  {| users := <["9" := adminUser]> scenarioUsers;
     readFault := fun _ => None;
     multicast := allDelivered;
     deliver := fun _ => Returned tt;
     store := fun _ => Returned tt;
     now := "2024-01-01T00:00:00.000Z" |}.

Definition manualRequest (tokens : list string) : manualData :=
  {| md_title := Val "Hi";
     md_body := Val "Hello";
     md_tokens := Val tokens;
     md_data := Undefined |}.

(** The condition of the validation [if]: a required field is missing. *)
Definition missingRequired (d : manualData) : Prop :=
  truthy (md_title d) = false \/ truthy (md_body d) = false
  \/ truthy (md_tokens d) = false \/ theList (md_tokens d) = [].

(** The same for the argument of the call: without a payload every
    required field is missing. *)
Definition payloadMissing (data : field manualData) : Prop :=
  match data with
  | Val d => missingRequired d
  | _ => True
  end.

(** The caller's user document can be read and has role [admin]. *)
Definition callerIsAdmin (w : world) (uid : string) : Prop :=
  readFault w (UsersDocGet uid) = None
  /\ roleOf (users w !! uid) = Val "admin".

(** The caller's user document can be read and has another role, or does
    not exist. *)
Definition callerIsNotAdmin (w : world) (uid : string) : Prop :=
  readFault w (UsersDocGet uid) = None
  /\ roleOf (users w !! uid) <> Val "admin".

(** A world whose store rejects the first record of a delivery and accepts
    the error record that follows. *)
Definition rejectDelivered (d : updateData) : outcome unit :=
  if notificationSent d then Threw (JsError "deadline-exceeded")
  else Returned tt.

Definition flakyStoreWorld : world :=
  {| users := scenarioUsers;
     readFault := fun _ => None;
     multicast := allDelivered;
     deliver := fun _ => Returned tt;
     store := rejectDelivered;
     now := "2024-01-01T00:00:00.000Z" |}.

(** A world whose Firestore reads reject. *)
Definition unreadableWorld : world :=
  {| users := scenarioUsers;
     readFault := fun _ => Some (JsError "unavailable");
     multicast := allDelivered;
     deliver := fun _ => Returned tt;
     store := fun _ => Returned tt;
     now := "2024-01-01T00:00:00.000Z" |}.

(** * The admin pages that cause the triggers

    The pages write to Firestore with [addDoc] and [updateDoc]; the object
    literal of each write is modelled, as a finite map from field name to
    value.  [updateDoc] replaces the fields it names and keeps the others. *)

Inductive docValue :=
| DString (s : string)
| DNumber (n : Z)
| DBool (b : bool)
| DNull
| DServerTimestamp.        (* the [serverTimestamp()] sentinel *)

Abbreviation document := (gmap string docValue).

Definition updateDoc (data : document) (d : document) : document := data ∪ d.

(** Reading a field that the triggers use as a string, or as a boolean;
    [None] when the field holds a value of another type, which the typed
    records above do not cover. *)
Definition stringField (d : document) (k : string) : option (field string) :=
  match d !! k with
  | None => Some Undefined
  | Some DNull => Some Null
  | Some (DString s) => Some (Val s)
  | Some _ => None
  end.


(** [snap.data()] as the triggers read it. *)
Definition bookingView (d : document) : option bookingData :=
  bs ← stringField d "bookingStatus";
  ps ← stringField d "paymentStatus";
  uid ← stringField d "userId";
  uid' ← stringField d "user_id";
  Some {| bookingStatus := bs; paymentStatus := ps;
          userId := uid; user_id := uid' |}.


Definition communicationView (d : document) : option communicationData :=
  rt ← stringField d "recipientType";
  rid ← stringField d "recipientId";
  rr ← stringField d "recipientRole";
  ttl ← stringField d "title";
  msg ← stringField d "message";
  ty ← stringField d "type";
  Some {| recipientType := rt; recipientId := rid; recipientRole := rr;
          title := ttl; message := msg; type := ty |}.

(** The triggers, fired by a write on a document. *)
Definition onBookingUpdate (w : world) (bookingId : string)
    (before after : document) : option (outcome (option bool) * trace) :=
  b ← bookingView before;
  a ← bookingView after;
  Some (run (sendBookingStatusNotification bookingId b a) w).


Definition onCommunicationCreate (w : world) (communicationId : string)
    (snap : document) : option (outcome (option batchResponse) * trace) :=
  c ← communicationView snap;
  Some (run (sendCommunicationNotification communicationId c) w).

(** [currentUser?.email || 'admin'] and [currentUser?.uid || 'admin'] *)
Definition orAdmin (who : field string) : string := orDefault who "admin".

(** ** BookingsManagement *)

(** [handleSaveEdit]: the [updateDoc] literal. *)
Definition saveEditData (checkInDate checkOutDate : string)
    (guests totalPrice : Z) : document :=
  {[ "checkInDate" := DString checkInDate;
     "checkOutDate" := DString checkOutDate;
     "guests" := DNumber guests;
     "totalPrice" := DNumber totalPrice;
     "updatedAt" := DServerTimestamp ]}.

(** [handleCancelBooking]: the [updateDoc] literal. *)
Definition cancelBookingData (cancelReason : string) (email : field string)
  : document :=
  {[ "status" := DString "cancelled";
     "cancellationReason" := DString cancelReason;
     "cancelledBy" := DString (orAdmin email);
     "cancelledAt" := DServerTimestamp;
     "updatedAt" := DServerTimestamp ]}.

(** [handleProcessRefund]: the [updateDoc] literal. *)
Definition processRefundData (refundAmount : Z) (email : field string)
  : document :=
  {[ "paymentStatus" := DString "refunded";
     "refundAmount" := DNumber refundAmount;
     "refundedBy" := DString (orAdmin email);
     "refundedAt" := DServerTimestamp;
     "updatedAt" := DServerTimestamp ]}.

(** ** AllFarmhouses and FarmhouseDetailModal *)






(** ** CommunicationCenter *)

(** [handleSendMessage]: the recipient count shown to the admin, from the
    snapshots of [users] and [farmhouses]. *)
Definition recipientCountOf (recipientType : string)
    (usersSnap : list (string * userData))
    (farmhousesSnap : list (string * farmhouseData)) : nat :=
  if String.eqb recipientType "all_users"
     || String.eqb recipientType "active_users" then
    if String.eqb recipientType "active_users" then
      length (List.filter (fun doc => truthy (is_active doc.2)) usersSnap)
    else length usersSnap
  else if String.eqb recipientType "all_owners" then
    length (List.filter (fun doc => strictEq (role doc.2) (Val "owner"))
              usersSnap)
  else if String.eqb recipientType "farmhouse_owners" then
    length (remove_dups
              (map (fun doc => orField (ownerId doc.2) (owner_id doc.2))
                 farmhousesSnap))
  else 0.

(** [handleSendMessage]: the [addDoc] literal. *)
Definition composedMessage (recipientType subject message : string)
    (email : field string) (recipientCount : nat) : document :=
  {[ "recipientType" := DString recipientType;
     "title" := DString subject;
     "message" := DString message;
     "sent_at" := DServerTimestamp;
     "sentBy" := DString (orAdmin email);
     "recipientCount" := DNumber (Z.of_nat recipientCount);
     "type" := DString "admin_message";
     "notificationSent" := DBool false ]}.

(** A booking document of user 1 and a listing document owned by user 1. *)
Definition bookingDoc (status payment : string) : document :=
  {[ "bookingStatus" := DString status;
     "paymentStatus" := DString payment;
     "userId" := DString "1";
     "totalPrice" := DNumber 4500 ]}.


(** * Utilities of the admin panel

    The helpers of [utils/] work on strings by position and length, so a
    string is here the sequence of its UTF-16 code units, which is what
    [length], [substring], [split], [trim] and a regular expression without
    the [u] flag see.  Numbers that the helpers take as sizes and lengths
    are integers. *)

Abbreviation ustring := (list N).

(** The code units of an ASCII literal. *)
Definition u (s : string) : ustring :=
  map Ascii.N_of_ascii (String.list_ascii_of_string s).

(** [WhiteSpace] and [LineTerminator] of ECMAScript: what [trim] strips and
    what [\s] matches. *)
Definition isWhiteSpace (c : N) : bool :=
  bool_decide (c ∈ [9; 10; 11; 12; 13; 32; 160; 5760; 8232; 8233; 8239;
                    8287; 12288; 65279]%N)
  || ((8192 <=? c) && (c <=? 8202))%N.

Fixpoint trimStart (s : ustring) : ustring :=
  match s with
  | c :: s' => if isWhiteSpace c then trimStart s' else s
  | [] => []
  end.

Definition trimEnd (s : ustring) : ustring := rev (trimStart (rev s)).

Definition trim (s : ustring) : ustring := trimEnd (trimStart s).

(** Truthiness of a string: it is not empty. *)
Definition nonEmpty (s : ustring) : bool :=
  match s with
  | [] => false
  | _ => true
  end.

(** [s.length] *)
Definition len (s : ustring) : Z := Z.of_nat (length s).

(** [l.slice(start, end)] and [s.substring(start, end)] on integers. *)
Definition slice {A} (l : list A) (start end_ : Z) : list A :=
  let n := Z.of_nat (length l) in
  let k := if (start <? 0)%Z then Z.max (n + start) 0 else Z.min start n in
  let final := if (end_ <? 0)%Z then Z.max (n + end_) 0 else Z.min end_ n in
  take (Z.to_nat (final - k)) (drop (Z.to_nat k) l).

Definition substring (s : ustring) (start end_ : Z) : ustring :=
  let n := len s in
  let clamp x := Z.min (Z.max x 0) n in
  let a := clamp start in
  let b := clamp end_ in
  take (Z.to_nat (Z.max a b - Z.min a b)) (drop (Z.to_nat (Z.min a b)) s).

(** ** validation.ts: the length checks *)

(** [Boolean(value && value.trim().length > 0)] *)
Definition isNonEmptyString (value : ustring) : bool :=
  nonEmpty value && (0 <? len (trim value))%Z.

(** [Boolean(value && value.trim().length >= minLength)] *)
Definition hasMinLength (value : ustring) (minLength : Z) : bool :=
  nonEmpty value && (minLength <=? len (trim value))%Z.

(** [!value || value.trim().length <= maxLength] *)
Definition hasMaxLength (value : ustring) (maxLength : Z) : bool :=
  negb (nonEmpty value) || (len (trim value) <=? maxLength)%Z.

(** ** formatters.ts: truncateText *)

Definition truncateText (text : ustring) (maxLength : Z) : ustring :=
  if negb (nonEmpty text) then []
  else if (len text <=? maxLength)%Z then text
  else substring text 0 maxLength ++ u "...".

(** ** firebaseHelpers.ts: batchProcess *)

(** The [for] loop of [batchProcess], from index [i] with the results
    gathered so far.  [processFn] may reject, which ends the loop, since
    nothing catches it; the batches handed to it are logged in [calls].
    The loop need not end, so it runs on fuel and [None] means that the
    fuel ran out. *)
Fixpoint batchLoop {T R} (fuel : nat) (items : list T) (batchSize : Z)
    (processFn : list T -> outcome R) (i : Z) (results : list R)
    (calls : list (list T)) : option (outcome (list R) * list (list T)) :=
  match fuel with
  | O => None
  | S fuel' =>
    if (i <? Z.of_nat (length items))%Z then
      let batch := slice items i (i + batchSize) in
      match processFn batch with
      | Returned result =>
        batchLoop fuel' items batchSize processFn (i + batchSize)%Z
          (results ++ [result]) (calls ++ [batch])
      | Threw e => Some (Threw e, calls ++ [batch])
      end
    else Some (Returned results, calls)
  end.

Definition batchProcess {T R} (fuel : nat) (items : list T) (batchSize : Z)
    (processFn : list T -> outcome R)
  : option (outcome (list R) * list (list T)) :=
  batchLoop fuel items batchSize processFn 0 [] [].


(** ** csvExport.ts: exportToCSV *)

(** [parts.join(sep)] *)
Fixpoint join (sep : ustring) (parts : list ustring) : ustring :=
  match parts with
  | [] => []
  | [p] => p
  | p :: rest => p ++ sep ++ join sep rest
  end.

(** The [replace] of [escapeCSVValue]: every double quote (code unit 34)
    becomes two. *)
Fixpoint doubleQuotes (s : ustring) : ustring :=
  match s with
  | [] => []
  | c :: s' =>
    if (c =? 34)%N then 34%N :: 34%N :: doubleQuotes s'
    else c :: doubleQuotes s'
  end.

(** What the browser is asked to save. *)
Record downloaded := {
  dl_content : ustring;
  dl_type : string;
  dl_filename : ustring
}.

Section CsvExport.

(** A cell is a string or a number; [String(value)] is the conversion of
    the language. *)
Variable cell : Type.
Variable toString : cell -> ustring.

Definition escapeCSVValue (value : cell) : ustring :=
  let stringValue := toString value in
  [34%N] ++ doubleQuotes stringValue ++ [34%N].

Definition csvLine (row : list cell) : ustring :=
  join (u ",") (map escapeCSVValue row).

Definition csvContent (headers : list ustring) (data : list (list cell))
  : ustring :=
  join [10%N] (join (u ",") headers :: map csvLine data).

(** The function saves the file and returns its message, or throws
    before doing anything. *)
Definition exportToCSV (headers : list ustring) (data : list (list cell))
    (filename : ustring) : outcome (ustring * downloaded) :=
  if (length data =? 0)%nat then Threw (JsError "No data to export")
  else
    Returned
      (u "Exported " ++ u (pretty (length data)) ++ u " records to "
         ++ filename,
       {| dl_content := csvContent headers data;
          dl_type := "text/csv;charset=utf-8;";
          dl_filename := filename |}).

End CsvExport.

(** A reader of one line of quoted fields: a field starts and ends with a
    quote, a doubled quote inside it stands for one, fields are separated
    by commas. *)
Inductive lineState := ExpectField | InField | QuoteSeen.

Fixpoint readLine (st : lineState) (cur : ustring) (done : list ustring)
    (s : ustring) : option (list ustring) :=
  match s with
  | [] =>
    match st with
    | QuoteSeen => Some (done ++ [cur])
    | ExpectField => match done with [] => Some [] | _ => None end
    | InField => None
    end
  | c :: s' =>
    match st with
    | ExpectField =>
      if (c =? 34)%N then readLine InField [] done s' else None
    | InField =>
      if (c =? 34)%N then readLine QuoteSeen cur done s'
      else readLine InField (cur ++ [c]) done s'
    | QuoteSeen =>
      if (c =? 34)%N then readLine InField (cur ++ [34%N]) done s'
      else if (c =? 44)%N then readLine ExpectField [] (done ++ [cur]) s'
      else None
    end
  end.

(** ** Regular expressions

    The patterns of [validation.ts] are anchored at both ends and use
    classes, literals, sequence, [?], [+] and counted repetition.
    [regex.test] on such a pattern says whether the whole string belongs to
    its language, which is computed here by derivatives. *)

Inductive regex :=
| Never
| Empty
| Class (p : N -> bool)
| Seq (r1 r2 : regex)
| Alt (r1 r2 : regex)
| Star (r : regex).

(** [r+], [r?], [r{n}] and a literal. *)
Definition Plus (r : regex) : regex := Seq r (Star r).
Definition Opt (r : regex) : regex := Alt r Empty.

Fixpoint Times (n : nat) (r : regex) : regex :=
  match n with
  | O => Empty
  | S n' => Seq r (Times n' r)
  end.

Definition Lit (s : ustring) : regex :=
  fold_right (fun c r => Seq (Class (N.eqb c)) r) Empty s.

Fixpoint nullable (r : regex) : bool :=
  match r with
  | Never => false
  | Empty => true
  | Class _ => false
  | Seq r1 r2 => nullable r1 && nullable r2
  | Alt r1 r2 => nullable r1 || nullable r2
  | Star _ => true
  end.

Fixpoint deriv (c : N) (r : regex) : regex :=
  match r with
  | Never => Never
  | Empty => Never
  | Class p => if p c then Empty else Never
  | Seq r1 r2 =>
    if nullable r1 then Alt (Seq (deriv c r1) r2) (deriv c r2)
    else Seq (deriv c r1) r2
  | Alt r1 r2 => Alt (deriv c r1) (deriv c r2)
  | Star r1 => Seq (deriv c r1) (Star r1)
  end.

(** [/^r$/.test(s)] *)
Definition test (r : regex) (s : ustring) : bool :=
  nullable (fold_left (fun r c => deriv c r) s r).

(** The language of a pattern. *)
Inductive lang : regex -> ustring -> Prop :=
| lang_empty : lang Empty []
| lang_class p c : p c = true -> lang (Class p) [c]
| lang_seq r1 r2 s1 s2 :
    lang r1 s1 -> lang r2 s2 -> lang (Seq r1 r2) (s1 ++ s2)
| lang_alt_l r1 r2 s : lang r1 s -> lang (Alt r1 r2) s
| lang_alt_r r1 r2 s : lang r2 s -> lang (Alt r1 r2) s
| lang_star_nil r : lang (Star r) []
| lang_star_more r s1 s2 :
    lang r s1 -> lang (Star r) s2 -> lang (Star r) (s1 ++ s2).

(** The classes of the patterns. *)
Definition inRange (lo hi : N) (c : N) : bool := ((lo <=? c) && (c <=? hi))%N.
Definition isDigit : N -> bool := inRange 48 57.            (* [\d], [0-9] *)
Definition notSpaceNorAt (c : N) : bool :=                   (* [^\s@] *)
  negb (isWhiteSpace c) && negb (c =? 64)%N.

(** ** validation.ts: the patterns *)

(** [/^[^\s@]+@[^\s@]+\.[^\s@]+$/] *)
Definition emailRegex : regex :=
  Seq (Plus (Class notSpaceNorAt))
    (Seq (Class (N.eqb 64))
       (Seq (Plus (Class notSpaceNorAt))
          (Seq (Class (N.eqb 46)) (Plus (Class notSpaceNorAt))))).

Definition isValidEmail (email : ustring) : bool :=
  if negb (nonEmpty email) then false else test emailRegex email.

(** [/^(\+91)?[6-9]\d{9}$/] *)
Definition phoneRegex : regex :=
  Seq (Opt (Lit (u "+91"))) (Seq (Class (inRange 54 57)) (Times 9 (Class isDigit))).

(** [phone.replace(/[\s\-\+]/g, '')]: the code units that are neither
    white space, nor a dash, nor a plus sign. *)
Definition cleanPhone (phone : ustring) : ustring :=
  List.filter
    (fun c => negb (isWhiteSpace c || (c =? 45)%N || (c =? 43)%N)) phone.

Definition isValidPhoneNumber (phone : ustring) : bool :=
  if negb (nonEmpty phone) then false
  else
    let cleaned := cleanPhone phone in
    test phoneRegex cleaned.

(** [/^[2-9]{1}[0-9]{11}$/] after [aadhaar.replace(/[\s\-]/g, '')] *)
Definition aadhaarRegex : regex :=
  Seq (Times 1 (Class (inRange 50 57))) (Times 11 (Class (inRange 48 57))).

Definition cleanAadhaar (aadhaar : ustring) : ustring :=
  List.filter (fun c => negb (isWhiteSpace c || (c =? 45)%N)) aadhaar.

Definition isValidAadhaar (aadhaar : ustring) : bool :=
  if negb (nonEmpty aadhaar) then false
  else
    let cleaned := cleanAadhaar aadhaar in
    test aadhaarRegex cleaned.

(** ** validation.ts: sanitizeInput *)

(** Case folding of a pattern without the [u] flag, seen from an ASCII
    pattern: a lower-case ASCII letter stands for its capital, and no code
    unit from 128 on is ever equal to an ASCII one. *)
Definition foldCase (c : N) : N :=
  if inRange 97 122 c then (c - 32)%N else c.

Fixpoint startsWithFolded (pattern s : ustring) : bool :=
  match pattern, s with
  | [], _ => true
  | p :: pattern', c :: s' =>
    (foldCase p =? foldCase c)%N && startsWithFolded pattern' s'
  | _ :: _, [] => false
  end.

(** [s.replace(/pattern/gi, '')] for a literal, non-empty pattern: matches
    are found from left to right and the search resumes after each one;
    [skip] counts the code units of the current match still to drop. *)
Fixpoint removeFolded (pattern : ustring) (skip : nat) (s : ustring)
  : ustring :=
  match s with
  | [] => []
  | c :: s' =>
    match skip with
    | S k => removeFolded pattern k s'
    | O =>
      if startsWithFolded pattern s
      then removeFolded pattern (length pattern - 1) s'
      else c :: removeFolded pattern 0 s'
    end
  end.

Definition javascriptScheme : ustring := u "javascript:".

Definition sanitizeInput (input : ustring) : ustring :=
  if negb (nonEmpty input) then []
  else
    trim
      (removeFolded javascriptScheme 0
         (List.filter (fun c => negb ((c =? 60)%N || (c =? 62)%N)) input)).

(** * Properties *)

(** ** The handler monad *)

(** The laws hold pointwise, at every world and log. *)
Lemma bind_ret_l {A B} (a : A) (k : A -> M B) (w : world) (t : trace) :
  bind (ret a) k w t = k a w t.
Proof. reflexivity. Qed.

Lemma bind_ret_r {A} (m : M A) (w : world) (t : trace) :
  bind m ret w t = m w t.
Proof. unfold bind, ret. by destruct (m w t) as [[a|e] t']. Qed.

Lemma bind_assoc {A B C} (m : M A) (k : A -> M B) (h : B -> M C)
    (w : world) (t : trace) :
  bind (bind m k) h w t = bind m (fun a => bind (k a) h) w t.
Proof. unfold bind. by destruct (m w t) as [[a|e] t']. Qed.

(** [catch] sees what was thrown and the log up to the throw; a [try] block
    that returns skips it. *)
Lemma tryCatch_throw {A} (e : thrown) (handler : thrown -> M A)
    (w : world) (t : trace) :
  tryCatch (throw e) handler w t = handler e w t.
Proof. reflexivity. Qed.

Lemma tryCatch_ret {A} (a : A) (handler : thrown -> M A)
    (w : world) (t : trace) :
  tryCatch (ret a) handler w t = (Returned a, t).
Proof. reflexivity. Qed.

(** A call is logged whether or not it rejects. *)
Lemma call_logged {A} (e : effect) (answer : world -> outcome A)
    (w : world) (t : trace) :
  (call e answer w t).2 = t ++ [e].
Proof. reflexivity. Qed.

(** ** Fields, truthiness and the log *)

Lemma strictEq_true {A} `{EqDecision A} (a b : field A) :
  strictEq a b = true <-> a = b.
Proof. unfold strictEq. apply bool_decide_eq_true. Qed.

Lemma strictEq_false {A} `{EqDecision A} (a b : field A) :
  strictEq a b = false <-> a <> b.
Proof. unfold strictEq. apply bool_decide_eq_false. Qed.

Lemma strictEq_refl {A} `{EqDecision A} (a : field A) : strictEq a a = true.
Proof. by apply strictEq_true. Qed.

Lemma truthy_string_Val (s : string) : truthy (Val s) = true <-> s <> "".
Proof.
  unfold truthy, truthyVal, truthy_string.
  rewrite negb_true_iff. apply String.eqb_neq.
Qed.

Lemma truthy_is_Val (f : field string) :
  truthy f = true -> f = Val (theString f) /\ theString f <> "".
Proof.
  destruct f as [| |s]; try discriminate.
  intros H. split; [reflexivity|]. by apply truthy_string_Val.
Qed.

(** The truthy tokens are the non-empty strings stored as [fcmToken] in the
    documents given. *)
Lemma elem_of_truthyTokens (docs : list (string * userData)) (tok : string) :
  In tok (truthyTokens docs) ->
  tok <> "" /\ exists uid u, In (uid, u) docs /\ fcmToken u = Val tok.
Proof.
  unfold truthyTokens. rewrite in_map_iff.
  intros (f & <- & Hf). apply filter_In in Hf as [Hin Htr].
  apply truthy_is_Val in Htr as [Hf Hne]. split; [done|].
  apply in_map_iff in Hin as ([uid u] & Hu & Hin). simpl in Hu.
  exists uid, u. split; [done|]. congruence.
Qed.

Lemma truthyTokens_single (id : string) (u : userData) :
  truthyTokens [(id, u)] =
  if truthy (fcmToken u) then [theString (fcmToken u)] else [].
Proof. unfold truthyTokens. simpl. by destruct (truthy (fcmToken u)). Qed.

Lemma sends_app (t1 t2 : trace) : sends (t1 ++ t2) = (sends t1 + sends t2)%nat.
Proof. unfold sends. by rewrite List.filter_app, length_app. Qed.

Lemma writes_app (t1 t2 : trace) : writes (t1 ++ t2) = (writes t1 + writes t2)%nat.
Proof. unfold writes. by rewrite List.filter_app, length_app. Qed.

(** ** Recipient resolution *)

(** What [resolveRecipientTokens] does on each of its branches, whatever the
    world answers. *)
Lemma resolve_all_users (w : world) (c : communicationData) :
  recipientType c = Val "all_users" ->
  resolveRecipientTokens c w [] =
  (match readFault w UsersGet with
   | Some err => Threw err
   | None => Returned (truthyTokens (allUsers w))
   end, [UsersGet]).
Proof.
  intros Hty. unfold resolveRecipientTokens. rewrite Hty. simpl.
  unfold bind, usersGet, call, answerRead, ret. simpl.
  by destruct (readFault w UsersGet).
Qed.

Lemma resolve_specific_user (w : world) (c : communicationData) (X : string) :
  recipientType c = Val "specific_user" -> recipientId c = Val X -> X <> "" ->
  resolveRecipientTokens c w [] =
  (match readFault w (UsersDocGet X) with
   | Some err => Threw err
   | None =>
     Returned (match users w !! X with
               | Some u => truthyTokens [(X, u)]
               | None => []
               end)
   end, [UsersDocGet X]).
Proof.
  intros Hty Hid HX. unfold resolveRecipientTokens. rewrite Hty, Hid.
  apply truthy_string_Val in HX as HX'.
  replace (strictEq (Val "specific_user") (Val "all_users")) with false
    by reflexivity.
  rewrite strictEq_refl, HX'. simpl.
  unfold bind, usersDocGet, call, answerRead, ret. simpl.
  destruct (readFault w (UsersDocGet X)); [done|].
  destruct (users w !! X) as [u|]; simpl; [|done].
  rewrite truthyTokens_single. by destruct (truthy (fcmToken u)).
Qed.

Lemma resolve_role (w : world) (c : communicationData) (R : string) :
  recipientType c = Val "role" -> recipientRole c = Val R -> R <> "" ->
  resolveRecipientTokens c w [] =
  (match readFault w (UsersWhereRoleGet R) with
   | Some err => Threw err
   | None => Returned (truthyTokens (usersWithRole R w))
   end, [UsersWhereRoleGet R]).
Proof.
  intros Hty Hr HR. unfold resolveRecipientTokens. rewrite Hty, Hr.
  apply truthy_string_Val in HR as HR'.
  replace (strictEq (Val "role") (Val "all_users")) with false by reflexivity.
  replace (strictEq (Val "role") (Val "specific_user")) with false
    by reflexivity.
  rewrite strictEq_refl, HR'. simpl.
  unfold bind, usersWhereRoleGet, call, answerRead, ret. simpl.
  by destruct (readFault w (UsersWhereRoleGet R)).
Qed.

(** A selector that is none of [all_users], [specific_user], [role] reads
    nothing and resolves no token. *)
Lemma resolve_other (w : world) (c : communicationData) :
  recipientType c <> Val "all_users" ->
  recipientType c <> Val "specific_user" ->
  recipientType c <> Val "role" ->
  resolveRecipientTokens c w [] = (Returned [], []).
Proof.
  intros H1 H2 H3. unfold resolveRecipientTokens.
  apply strictEq_false in H1, H2, H3. by rewrite H1, H2, H3.
Qed.

(** C1 (as amended): over a fixed set of user records and with the store
    answering, [all_users] resolves to every user record; [specific_user]
    with a non-empty id X resolves to exactly the user X, whatever other
    users there are; the selector [role] with an accompanying role R
    resolves to every user record whose role is R (owners are addressed as
    role [owner]); [all_owners] and [farmhouse_owners] resolve to the same
    set.  The tokens sent to are the stored tokens of the resolved users. *)
Theorem broadcast_recipient_resolution (w : world) (c : communicationData) :
  noReadFault w ->
  (recipientType c = Val "all_users" ->
   run (resolveRecipientTokens c) w =
   (Returned (truthyTokens (allUsers w)), [UsersGet]))
  /\ (forall X u,
        recipientType c = Val "specific_user" -> recipientId c = Val X ->
        X <> "" -> users w !! X = Some u ->
        run (resolveRecipientTokens c) w =
        (Returned (truthyTokens [(X, u)]), [UsersDocGet X]))
  /\ (forall R,
        recipientType c = Val "role" -> recipientRole c = Val R -> R <> "" ->
        run (resolveRecipientTokens c) w =
        (Returned (truthyTokens (usersWithRole R w)), [UsersWhereRoleGet R]))
  /\ (forall c',
        recipientType c = Val "all_owners" ->
        recipientType c' = Val "farmhouse_owners" ->
        run (resolveRecipientTokens c) w = run (resolveRecipientTokens c') w).
Proof.
  intros Hok. unfold run. repeat split.
  - intros Hty. by rewrite (resolve_all_users _ _ Hty), Hok.
  - intros X u Hty Hid HX Hu.
    by rewrite (resolve_specific_user _ _ _ Hty Hid HX), Hok, Hu.
  - intros R Hty Hr HR. by rewrite (resolve_role _ _ _ Hty Hr HR), Hok.
  - intros c' Hty Hty'.
    rewrite !resolve_other; rewrite ?Hty, ?Hty'; done.
Qed.

Lemma broadcast_recipient_resolution_witness :
  noReadFault scenarioWorld /\
  run (resolveRecipientTokens (broadcast "all_users")) scenarioWorld =
  (Returned (truthyTokens (allUsers scenarioWorld)), [UsersGet]).
Proof.
  split; [intros e; reflexivity|].
  apply (broadcast_recipient_resolution scenarioWorld (broadcast "all_users"));
    [intros e; reflexivity | reflexivity].
Defined.

(** C1 (as stated) fails: on the scenario's users the selector
    [active_users_only] makes the dispatcher read no user record and resolve
    no token, while the active users hold the token tA. *)
Lemma active_users_only_unresolved :
  run (resolveRecipientTokens (broadcast "active_users_only")) scenarioWorld
  = (Returned [], [])
  /\ truthyTokens (specRecipients "active_users_only" "" scenarioWorld) = ["tA"]
  /\ (run (resolveRecipientTokens (broadcast "active_users_only"))
        scenarioWorld).1
     <> Returned (truthyTokens
                    (specRecipients "active_users_only" "" scenarioWorld)).
Proof. repeat split; try by vm_compute. Qed.

(** Either one read is made and the tokens are the truthy tokens of the
    documents it returned, or nothing is read and nothing resolved. *)
Lemma resolve_inv (w : world) (c : communicationData) :
  (exists q docs,
      isLookup q = true
      /\ (forall uid u, In (uid, u) docs -> users w !! uid = Some u)
      /\ resolveRecipientTokens c w [] =
         (match readFault w q with
          | Some err => Threw err
          | None => Returned (truthyTokens docs)
          end, [q]))
  \/ resolveRecipientTokens c w [] = (Returned [], []).
Proof.
  assert (Hall : forall uid u,
             In (uid, u) (allUsers w) -> users w !! uid = Some u).
  { intros uid u Hin. apply list_elem_of_In in Hin.
    by apply elem_of_map_to_list in Hin. }
  destruct (decide (recipientType c = Val "all_users")) as [Hty|Hn1].
  { left. exists UsersGet, (allUsers w). repeat split; [done|].
    by apply resolve_all_users. }
  destruct (decide (recipientType c = Val "specific_user")) as [Hty|Hn2].
  { destruct (truthy (recipientId c)) eqn:Hid.
    - apply truthy_is_Val in Hid as [Hid HX]. left.
      exists (UsersDocGet (theString (recipientId c))),
        (match users w !! theString (recipientId c) with
         | Some u => [(theString (recipientId c), u)]
         | None => []
         end).
      repeat split.
      + intros uid u. destruct (users w !! _) eqn:E; simpl; [|done].
        intros [[= <- <-]|[]]. done.
      + rewrite (resolve_specific_user _ _ _ Hty Hid HX).
        by destruct (users w !! _).
    - right. unfold resolveRecipientTokens. rewrite Hty, Hid. reflexivity. }
  destruct (decide (recipientType c = Val "role")) as [Hty|Hn3].
  { destruct (truthy (recipientRole c)) eqn:Hr.
    - apply truthy_is_Val in Hr as [Hr HR]. left.
      exists (UsersWhereRoleGet (theString (recipientRole c))),
        (usersWithRole (theString (recipientRole c)) w).
      repeat split.
      + intros uid u Hin. apply filter_In in Hin as [Hin _]. by apply Hall.
      + by apply resolve_role.
    - right. unfold resolveRecipientTokens. rewrite Hty, Hr. reflexivity. }
  right. by apply resolve_other.
Qed.

(** Resolution never sends nor writes, and resolves stored tokens only. *)
Lemma resolve_tokens_stored (w : world) (c : communicationData)
    (r : outcome (list string)) (t0 : trace) :
  resolveRecipientTokens c w [] = (r, t0) ->
  sends t0 = 0%nat /\ writes t0 = 0%nat
  /\ (forall toks, r = Returned toks -> Forall (storedToken w) toks).
Proof.
  destruct (resolve_inv w c) as [(q & docs & Hq & Hdocs & ->)| ->].
  - intros [= <- <-]. repeat split; try by destruct q.
    intros toks. destruct (readFault w q); [done|]. intros [= <-].
    apply List.Forall_forall. intros tok Hin.
    apply elem_of_truthyTokens in Hin as (Hne & uid & u & Hin & Htok).
    split; [done|]. exists uid, u. by split; [apply Hdocs|].
  - intros [= <- <-]. repeat split. intros toks [= <-]. constructor.
Qed.

(** ** Runs of [sendCommunicationNotification] *)

(** The handler, path by path, in terms of what resolution, the transport
    and the store answer. *)
Lemma communication_run (w : world) (id : string) (c : communicationData) :
  run (sendCommunicationNotification id c) w =
  match resolveRecipientTokens c w [] with
  | (Threw e, t0) => (caught w e, t0 ++ [Update (errorUpdate e)])
  | (Returned [], t0) => (Returned None, t0)
  | (Returned toks, t0) =>
    let payload := communicationPayload id c toks (now w) in
    match multicast w payload with
    | Threw e =>
      (caught w e,
       t0 ++ [SendEachForMulticast payload; Update (errorUpdate e)])
    | Returned response =>
      match store w (deliveredUpdate response) with
      | Returned _ =>
        (Returned (Some response),
         t0 ++ [SendEachForMulticast payload;
                Update (deliveredUpdate response)])
      | Threw e =>
        (caught w e,
         t0 ++ [SendEachForMulticast payload;
                Update (deliveredUpdate response);
                Update (errorUpdate e)])
      end
    end
  end.
Proof.
  unfold run, sendCommunicationNotification, tryCatch, bind, caught.
  destruct (resolveRecipientTokens c w []) as [[toks|e] t0].
  - destruct toks as [|tok toks]; [reflexivity|]. cbn -[communicationPayload].
    unfold sendEachForMulticast, update, call, ask, ret. cbn -[communicationPayload].
    destruct (multicast w _) as [response|e]; cbn -[communicationPayload].
    + destruct (store w (deliveredUpdate response)) as [[]|e];
        cbn -[communicationPayload]; rewrite <- ?app_assoc; [reflexivity|].
      by destruct (store w (errorUpdate e)); rewrite <- ?app_assoc.
    + by destruct (store w (errorUpdate e)); rewrite <- ?app_assoc.
  - unfold update, call, ret. simpl. by destruct (store w (errorUpdate e)).
Qed.

Lemma only_lookups (t : trace) :
  Forall (fun e => isLookup e = true) t ->
  sends t = 0%nat /\ writes t = 0%nat
  /\ (forall w, completedWrites w t = 0%nat)
  /\ (forall e, In e t -> isLookup e = true).
Proof.
  intros H. repeat split.
  - induction H as [|e t He _ IH]; [done|]. unfold sends in *. simpl.
    by destruct e.
  - induction H as [|e t He _ IH]; [done|]. unfold writes in *. simpl.
    by destruct e.
  - intros w. induction H as [|e t He _ IH]; [done|].
    unfold completedWrites in *. simpl. by destruct e.
  - by apply List.Forall_forall.
Qed.

Lemma resolve_only_lookups (w : world) (c : communicationData)
    (r : outcome (list string)) (t0 : trace) :
  resolveRecipientTokens c w [] = (r, t0) ->
  Forall (fun e => isLookup e = true) t0.
Proof.
  destruct (resolve_inv w c) as [(q & docs & Hq & _ & ->)| ->];
    intros [= <- <-]; repeat constructor; done.
Qed.

Lemma completedWrites_app (w : world) (t1 t2 : trace) :
  completedWrites w (t1 ++ t2)
  = (completedWrites w t1 + completedWrites w t2)%nat.
Proof. unfold completedWrites. by rewrite List.filter_app, length_app. Qed.

(** Closes the counting goals left once a path of the handler is fixed;
    a path on which an update was rejected contradicts [storeAccepts]. *)
Ltac count_writes :=
  repeat split; intros; simpl;
  try match goal with
      | H : storeAccepts ?w, E : store ?w ?d = Threw _ |- _ =>
        specialize (H d); congruence
      end;
  first [lia | done].

(** C2 (as amended): for every broadcast creation event the dispatcher
    completes at most one delivery-outcome write onto the triggering record,
    never more; when no recipient token is resolved it performs no write at
    all; otherwise (a token was resolved, or resolution itself failed) it
    issues a write, in the success and in the transport-error case alike,
    and exactly one when the store accepts it. *)
Theorem broadcast_outcome_writes (w : world) (id : string)
    (c : communicationData) :
  let t := (run (sendCommunicationNotification id c) w).2 in
  let resolved := (run (resolveRecipientTokens c) w).1 in
  (completedWrites w t <= 1)%nat
  /\ (resolved = Returned [] -> writes t = 0%nat)
  /\ (resolved <> Returned [] ->
      (1 <= writes t)%nat /\ (storeAccepts w -> writes t = 1%nat)).
Proof.
  cbv zeta. rewrite communication_run. unfold run.
  destruct (resolveRecipientTokens c w []) as [r t0] eqn:Hres.
  apply resolve_only_lookups, only_lookups in Hres as (_ & Hw & Hcw & _).
  simpl. destruct r as [[|tok toks]|e]; simpl.
  - rewrite Hcw, Hw. count_writes.
  - destruct (multicast w _) as [response|e]; simpl.
    + destruct (store w (deliveredUpdate response)) as [[]|e] eqn:Hst; simpl;
        rewrite completedWrites_app, writes_app, Hcw, Hw;
        unfold completedWrites, writes; simpl; rewrite Hst.
      * count_writes.
      * destruct (store w (errorUpdate e)); count_writes.
    + rewrite completedWrites_app, writes_app, Hcw, Hw.
      unfold completedWrites, writes; simpl.
      destruct (store w (errorUpdate e)); count_writes.
  - rewrite completedWrites_app, writes_app, Hcw, Hw.
    unfold completedWrites, writes; simpl.
    destruct (store w (errorUpdate e)); count_writes.
Qed.

Lemma broadcast_outcome_writes_witness :
  (run (resolveRecipientTokens (broadcast "all_users")) scenarioWorld).1
  <> Returned []
  /\ storeAccepts scenarioWorld
  /\ writes
       (run (sendCommunicationNotification "c1" (broadcast "all_users"))
          scenarioWorld).2 = 1%nat.
Proof.
  assert (H1 : (run (resolveRecipientTokens (broadcast "all_users"))
                  scenarioWorld).1 <> Returned []) by (by vm_compute).
  assert (H2 : storeAccepts scenarioWorld) by (intros d; reflexivity).
  split; [exact H1 | split; [exact H2 |]].
  exact (proj2 (proj2 (proj2
           (broadcast_outcome_writes scenarioWorld "c1"
              (broadcast "all_users"))) H1) H2).
Defined.

(** C2 (as stated) fails: a broadcast to [all_users] while no user holds a
    token ends at the empty-token guard with no write at all, not one. *)
Lemma no_token_no_write :
  run (sendCommunicationNotification "c1" (broadcast "all_users")) emptyWorld
  = (Returned None, [UsersGet])
  /\ writes
       (run (sendCommunicationNotification "c1" (broadcast "all_users"))
          emptyWorld).2 <> 1%nat.
Proof. split; by vm_compute. Qed.

(** ** Tokens attempted and counts recorded *)

Lemma deliveredUpdate_status (response resp : batchResponse) :
  deliveryStatus (deliveredUpdate response) = Some resp -> resp = response.
Proof. destruct response. simpl. by intros [= <-]. Qed.

(** C3 (as amended): for every broadcast creation event, only stored,
    non-empty push tokens reach the transport call, so a resolved recipient
    without a token is left out of it; such a recipient never makes the
    handler throw; the recorded delivery counts are the counts the transport
    reported for the attempted tokens.  In particular, for the users
    {1: active, tA}, {2: inactive, tB}, {3: active, no token}, a broadcast
    with selector [all_users], title Hi and body Hello sends to the tokens
    tA and tB only and records 2 successes and 0 failures when the
    transport reports success. *)
Theorem token_absence_handling (w : world) (id : string)
    (c : communicationData) :
  let r := (run (sendCommunicationNotification id c) w).1 in
  let t := (run (sendCommunicationNotification id c) w).2 in
  (forall payload,
      In (SendEachForMulticast payload) t ->
      Forall (storedToken w) (tokens payload))
  /\ (forall d resp,
        In (Update d) t -> deliveryStatus d = Some resp ->
        exists payload,
          In (SendEachForMulticast payload) t
          /\ multicast w payload = Returned resp)
  /\ (storeAccepts w -> exists v, r = Returned v)
  /\ run (sendCommunicationNotification "c1" (broadcast "all_users"))
       scenarioWorld
     = (Returned (Some {| successCount := 2; failureCount := 0 |}),
        [UsersGet;
         SendEachForMulticast
           {| tokens := ["tA"; "tB"];
              mc_notification := {| n_title := "Hi"; n_body := "Hello" |};
              mc_data := [("communicationId", Val "c1");
                          ("type", Val "general");
                          ("timestamp", Val (now scenarioWorld))];
              mc_android := androidLiteral;
              mc_apns := apnsLiteral |};
         Update {| notificationSent := true;
                   notificationSentAt := Some tt;
                   deliveryStatus :=
                     Some {| successCount := 2; failureCount := 0 |};
                   notificationError := None |}]).
Proof.
  cbv zeta. split; [|split; [|split; [|by vm_compute]]].
  - intros payload. rewrite communication_run.
    destruct (resolveRecipientTokens c w []) as [r t0] eqn:Hres.
    pose proof (resolve_tokens_stored _ _ _ _ Hres) as (_ & _ & Hst).
    apply resolve_only_lookups, only_lookups in Hres as (_ & _ & _ & Hlk).
    assert (Hpre : In (SendEachForMulticast payload) t0 -> False)
      by (intros Hin; by apply Hlk in Hin).
    destruct r as [[|tok toks]|e]; simpl.
    + intros Hin. by destruct Hpre.
    + specialize (Hst _ eq_refl).
      destruct (multicast w _) as [response|e];
        [destruct (store w (deliveredUpdate response)) as [[]|e]|];
        simpl; rewrite in_app_iff; simpl;
        intros [Hin|Hin]; try (by destruct Hpre);
        repeat (destruct Hin as [Hin|Hin]; try discriminate Hin);
        try (by destruct Hin);
        injection Hin as <-; exact Hst.
    + rewrite in_app_iff. simpl. intros [Hin|[Hin|[]]]; [by destruct Hpre|done].
  - intros d resp. rewrite communication_run.
    destruct (resolveRecipientTokens c w []) as [r t0] eqn:Hres.
    apply resolve_only_lookups, only_lookups in Hres as (_ & _ & _ & Hlk).
    assert (Hpre : In (Update d) t0 -> False)
      by (intros Hin; by apply Hlk in Hin).
    destruct r as [[|tok toks]|e]; simpl.
    + intros Hin. by destruct Hpre.
    + destruct (multicast w _) as [response|e] eqn:Hmc;
        [destruct (store w (deliveredUpdate response)) as [[]|e]|];
        simpl; rewrite in_app_iff; simpl;
        intros [Hin|Hin] Hd; try (by destruct Hpre);
        repeat (destruct Hin as [Hin|Hin]; try discriminate Hin);
        try (by destruct Hin);
        injection Hin as <-; try discriminate Hd;
        apply deliveredUpdate_status in Hd as ->;
        eexists; (split; [|exact Hmc]);
        apply in_app_iff; right; by left.
    + rewrite in_app_iff. simpl.
      intros [Hin|[Hin|[]]] Hd; [by destruct Hpre|].
      injection Hin as <-. discriminate Hd.
  - intros Hacc. rewrite communication_run. unfold caught.
    destruct (resolveRecipientTokens c w []) as [[[|tok toks]|e] t0]; simpl.
    + by eexists.
    + destruct (multicast w _) as [response|e]; simpl;
        [destruct (store w (deliveredUpdate response)) as [[]|e]|]; simpl;
        rewrite ?Hacc; by eexists.
    + rewrite Hacc. by eexists.
Qed.

Lemma token_absence_handling_witness :
  storeAccepts scenarioWorld
  /\ exists v,
      (run (sendCommunicationNotification "c1" (broadcast "all_users"))
         scenarioWorld).1 = Returned v.
Proof.
  assert (H : storeAccepts scenarioWorld) by (intros d; reflexivity).
  split; [exact H|].
  exact (proj1 (proj2 (proj2
           (token_absence_handling scenarioWorld "c1"
              (broadcast "all_users")))) H).
Defined.

(** C3 (as stated) fails on its scenario: with selector [active_users_only]
    the dispatcher makes no external call at all, so nothing is sent to tA
    and no delivery status is recorded. *)
Lemma active_users_only_scenario :
  let t := (run (sendCommunicationNotification "c1"
                   (broadcast "active_users_only")) scenarioWorld).2 in
  t = []
  /\ ~ (exists payload,
          In (SendEachForMulticast payload) t /\ tokens payload = ["tA"])
  /\ ~ (exists d,
          In (Update d) t
          /\ deliveryStatus d
             = Some {| successCount := 1; failureCount := 0 |}).
Proof.
  cbv zeta.
  assert (E : (run (sendCommunicationNotification "c1"
                      (broadcast "active_users_only")) scenarioWorld).2 = [])
    by (by vm_compute).
  rewrite E. repeat split; intros [x [[] _]].
Qed.

(** ** Transport-level exceptions *)

(** C8: when the batched transport call of a broadcast throws an exception
    with message [m], the dispatcher writes back onto the triggering record
    [notificationSent = false] and [notificationError = m]; the transport
    was called once, and is not called again. *)
Theorem transport_exception_recorded (w : world) (id : string)
    (c : communicationData) (toks : list string) (t0 : trace)
    (e : thrown) (m : string) :
  run (resolveRecipientTokens c) w = (Returned toks, t0) ->
  toks <> [] ->
  multicast w (communicationPayload id c toks (now w)) = Threw e ->
  errorMessage e = Some m ->
  let t := (run (sendCommunicationNotification id c) w).2 in
  t = t0 ++ [SendEachForMulticast (communicationPayload id c toks (now w));
             Update {| notificationSent := false;
                       notificationSentAt := None;
                       deliveryStatus := None;
                       notificationError := Some m |}]
  /\ sends t = 1%nat
  /\ writes t = 1%nat.
Proof.
  unfold run at 1. intros Hres Hne Hmc Hm. cbv zeta.
  rewrite communication_run, Hres.
  apply resolve_only_lookups, only_lookups in Hres as (Hs & Hw & _).
  destruct toks as [|tok toks]; [done|]. cbv zeta. rewrite Hmc. simpl.
  assert (Hmsg : messageOf e = m) by (destruct e; simpl in *; congruence).
  unfold errorUpdate. rewrite Hmsg, sends_app, writes_app, Hs, Hw. done.
Qed.

Lemma transport_exception_recorded_witness :
  (run (sendCommunicationNotification "c1" (broadcast "all_users"))
     outageWorld).2
  = [UsersGet;
     SendEachForMulticast
       (communicationPayload "c1" (broadcast "all_users") ["tA"; "tB"]
          (now outageWorld));
     Update {| notificationSent := false;
               notificationSentAt := None;
               deliveryStatus := None;
               notificationError := Some "messaging/server-unavailable" |}].
Proof.
  refine (proj1 (transport_exception_recorded outageWorld "c1"
            (broadcast "all_users") ["tA"; "tB"] [UsersGet]
            (JsError "messaging/server-unavailable")
            "messaging/server-unavailable" _ _ _ _)).
  - by vm_compute.
  - discriminate.
  - reflexivity.
  - reflexivity.
Defined.

(** A thrown value that is not an instance of [Error] is recorded as
    [Unknown error]. *)
Lemma non_error_recorded (w : world) (id : string) (c : communicationData)
    (toks : list string) (t0 : trace) :
  run (resolveRecipientTokens c) w = (Returned toks, t0) ->
  toks <> [] ->
  multicast w (communicationPayload id c toks (now w)) = Threw NotAnError ->
  In (Update {| notificationSent := false;
                notificationSentAt := None;
                deliveryStatus := None;
                notificationError := Some "Unknown error" |})
     (run (sendCommunicationNotification id c) w).2.
Proof.
  unfold run at 1. intros Hres Hne Hmc. rewrite communication_run, Hres.
  destruct toks as [|tok toks]; [done|]. cbv zeta. rewrite Hmc. simpl.
  apply in_app_iff. right. right. by left.
Qed.

(** ** Runs of [sendBookingStatusNotification] *)

Lemma booking_run (w : world) (id : string) (before after : bookingData) :
  run (sendBookingStatusNotification id before after) w =
  if strictEq (bookingStatus before) (bookingStatus after)
     && strictEq (paymentStatus before) (paymentStatus after)
  then (Returned None, [])
  else
    let userId := orField (userId after) (user_id after) in
    if negb (truthy userId) then (Returned None, [])
    else
      match readFault w (UsersDocGet (theString userId)) with
      | Some _ => (Returned None, [UsersDocGet (theString userId)])
      | None =>
        let fcmToken := fcmTokenOf (users w !! theString userId) in
        if negb (truthy fcmToken)
        then (Returned None, [UsersDocGet (theString userId)])
        else
          let payload :=
            bookingPayload id before after (theString fcmToken) in
          (match deliver w payload with
           | Returned _ => Returned (Some true)
           | Threw _ => Returned None
           end,
           [UsersDocGet (theString userId); Send payload])
      end.
Proof.
  unfold run, sendBookingStatusNotification.
  destruct (_ && _); [reflexivity|].
  unfold tryCatch, bind. cbv zeta.
  destruct (truthy (orField _ _)); [|reflexivity]. simpl.
  unfold answerRead. destruct (readFault w _); [reflexivity|]. simpl.
  destruct (truthy (fcmTokenOf _)); [|reflexivity]. simpl.
  by destruct (deliver w _).
Qed.

(** The run when the guard passes and the booking's user holds token
    [tok]. *)
Lemma booking_run_reachable (w : world) (id : string)
    (before after : bookingData) (uid : string) (u : userData)
    (tok : string) :
  bookingStatus before <> bookingStatus after
  \/ paymentStatus before <> paymentStatus after ->
  orField (userId after) (user_id after) = Val uid -> uid <> "" ->
  readFault w (UsersDocGet uid) = None ->
  users w !! uid = Some u -> fcmToken u = Val tok -> tok <> "" ->
  (run (sendBookingStatusNotification id before after) w).2
  = [UsersDocGet uid; Send (bookingPayload id before after tok)].
Proof.
  intros Hch Huid Hne Hrd Hu Htok Htne. rewrite booking_run.
  assert (Hg : strictEq (bookingStatus before) (bookingStatus after)
               && strictEq (paymentStatus before) (paymentStatus after)
               = false).
  { apply andb_false_iff. destruct Hch as [H|H]; [left|right];
      by apply strictEq_false. }
  rewrite Hg. cbv zeta. rewrite Huid.
  apply truthy_string_Val in Hne, Htne. rewrite Hne. simpl.
  rewrite Hrd, Hu. simpl. rewrite Htok, Htne. simpl. reflexivity.
Qed.

Lemma booking_sends_le_1 (w : world) (id : string)
    (before after : bookingData) :
  let t := (run (sendBookingStatusNotification id before after) w).2 in
  (sends t <= 1)%nat
  /\ (forall m, In (Send m) t ->
        exists tok, m = bookingPayload id before after tok)
  /\ exists v, (run (sendBookingStatusNotification id before after) w).1
              = Returned v.
Proof.
  cbv zeta. rewrite booking_run.
  assert (Hnil : (sends [] <= 1)%nat
                 /\ (forall m, In (Send m) [] ->
                       exists tok, m = bookingPayload id before after tok))
    by (split; [unfold sends; simpl; lia | intros ? []]).
  assert (Hread : forall uid,
             (sends [UsersDocGet uid] <= 1)%nat
             /\ (forall m, In (Send m) [UsersDocGet uid] ->
                   exists tok, m = bookingPayload id before after tok)).
  { intros uid. split; [unfold sends; simpl; lia|].
    intros m [Hin|[]]. discriminate Hin. }
  destruct (_ && _); [simpl; split_and!; [apply Hnil..|by eexists]|].
  cbv zeta. destruct (negb (truthy (orField _ _)));
    [simpl; split_and!; [apply Hnil..|by eexists]|].
  destruct (readFault w _);
    [simpl; split_and!; [apply Hread..|by eexists]|].
  destruct (negb (truthy (fcmTokenOf _)));
    [simpl; split_and!; [apply Hread..|by eexists]|].
  simpl. split_and!; [unfold sends; simpl; lia| |].
  - intros m [Hin|[Hin|[]]]; [discriminate Hin|].
    injection Hin as <-. by eexists.
  - destruct (deliver w _); by eexists.
Qed.

(** ** Booking notifications *)

(** C4 (as amended): for every booking update event that passes the change
    guard, the text is selected by priority from fixed tables: a changed
    booking status of confirmed, cancelled or completed gives that state's
    title and body; if only the payment status changed, paid, failed or
    refunded give theirs.  Any other value is not ignored: the title stays
    [Booking Update] and the body empty, and the notification is sent with
    that text like any other; the handler raises no error. *)
Theorem booking_text_selection (w : world) (id : string)
    (before after : bookingData) :
  bookingStatus before <> bookingStatus after
  \/ paymentStatus before <> paymentStatus after ->
  (bookingStatus before <> bookingStatus after ->
   (bookingStatus after = Val "confirmed" ->
    bookingText before after
    = ("Booking Confirmed", "Your booking has been confirmed!"))
   /\ (bookingStatus after = Val "cancelled" ->
       bookingText before after
       = ("Booking Cancelled", "Your booking has been cancelled."))
   /\ (bookingStatus after = Val "completed" ->
       bookingText before after
       = ("Booking Completed", "Thank you for using our service!"))
   /\ (bookingStatus after <> Val "confirmed" ->
       bookingStatus after <> Val "cancelled" ->
       bookingStatus after <> Val "completed" ->
       bookingText before after = ("Booking Update", "")))
  /\ (bookingStatus before = bookingStatus after ->
      (paymentStatus after = Val "paid" ->
       bookingText before after
       = ("Payment Successful", "Your payment has been received."))
      /\ (paymentStatus after = Val "failed" ->
          bookingText before after
          = ("Payment Failed", "Your payment could not be processed."))
      /\ (paymentStatus after = Val "refunded" ->
          bookingText before after
          = ("Payment Refunded", "Your payment has been refunded."))
      /\ (paymentStatus after <> Val "paid" ->
          paymentStatus after <> Val "failed" ->
          paymentStatus after <> Val "refunded" ->
          bookingText before after = ("Booking Update", "")))
  /\ (forall uid u tok,
        orField (userId after) (user_id after) = Val uid -> uid <> "" ->
        readFault w (UsersDocGet uid) = None ->
        users w !! uid = Some u -> fcmToken u = Val tok -> tok <> "" ->
        exists m,
          (run (sendBookingStatusNotification id before after) w).2
          = [UsersDocGet uid; Send m]
          /\ token m = tok
          /\ (n_title (notification m), n_body (notification m))
             = bookingText before after)
  /\ (exists v,
        (run (sendBookingStatusNotification id before after) w).1
        = Returned v).
Proof.
  intros Hguard. split_and!.
  - intros Hbs. apply strictEq_false in Hbs.
    unfold bookingText, bookingStatusSwitch. rewrite Hbs. simpl.
    split_and!.
    + by intros ->.
    + by intros ->.
    + by intros ->.
    + intros H1 H2 H3. apply strictEq_false in H1, H2, H3.
      by rewrite H1, H2, H3.
  - intros Hbs. assert (Hps : paymentStatus before <> paymentStatus after)
      by (by destruct Hguard).
    apply strictEq_true in Hbs. apply strictEq_false in Hps.
    unfold bookingText, paymentStatusSwitch. rewrite Hbs, Hps. simpl.
    split_and!.
    + by intros ->.
    + by intros ->.
    + by intros ->.
    + intros H1 H2 H3. apply strictEq_false in H1, H2, H3.
      by rewrite H1, H2, H3.
  - intros uid u tok Huid Hne Hrd Hu Htok Htne.
    exists (bookingPayload id before after tok). split_and!.
    + by eapply booking_run_reachable.
    + reflexivity.
    + simpl. by destruct (bookingText before after).
  - apply booking_sends_le_1.
Qed.

Lemma booking_text_selection_witness :
  bookingText (booking "pending" "pending" "1")
    (booking "confirmed" "pending" "1")
  = ("Booking Confirmed", "Your booking has been confirmed!").
Proof.
  refine (proj1 (proj1 (booking_text_selection scenarioWorld "b1"
            (booking "pending" "pending" "1")
            (booking "confirmed" "pending" "1") _) _) _).
  - left. discriminate.
  - discriminate.
  - reflexivity.
Defined.

(** C4 (as stated) fails: a booking whose status changes from confirmed to
    pending is not ignored; its user is sent a notification titled
    [Booking Update] with an empty body. *)
Lemma other_status_still_notified :
  run (sendBookingStatusNotification "b1" (booking "confirmed" "paid" "1")
         (booking "pending" "paid" "1")) scenarioWorld
  = (Returned (Some true),
     [UsersDocGet "1";
      Send {| token := "tA";
              notification := {| n_title := "Booking Update"; n_body := "" |};
              data := [("bookingId", Val "b1");
                       ("type", Val "booking_update");
                       ("bookingStatus", Val "pending");
                       ("paymentStatus", Val "paid")];
              android := androidLiteral;
              apns := apnsLiteral |}])
  /\ sends (run (sendBookingStatusNotification "b1"
                   (booking "confirmed" "paid" "1")
                   (booking "pending" "paid" "1")) scenarioWorld).2
     <> 0%nat.
Proof. split; by vm_compute. Qed.

(** C5: when both the booking status and the payment status change in one
    update event, at most one push notification is sent, never two:
    exactly one when the handler gets as far as the text, which is when
    the booking names a user whose document can be read and holds a push
    token; none when it stops before (no user, no token).  The text sent
    is the booking-status one; no payment-status message is sent for that
    event. *)
Theorem booking_both_changed (w : world) (id : string)
    (before after : bookingData) :
  bookingStatus before <> bookingStatus after ->
  paymentStatus before <> paymentStatus after ->
  let t := (run (sendBookingStatusNotification id before after) w).2 in
  (sends t <= 1)%nat
  /\ (forall m,
        In (Send m) t ->
        (n_title (notification m), n_body (notification m))
        = bookingStatusSwitch (bookingStatus after) ("Booking Update", "")
        /\ ~ In (n_title (notification m)) paymentTitles)
  /\ (forall uid u tok,
        orField (userId after) (user_id after) = Val uid -> uid <> "" ->
        readFault w (UsersDocGet uid) = None ->
        users w !! uid = Some u -> fcmToken u = Val tok -> tok <> "" ->
        t = [UsersDocGet uid; Send (bookingPayload id before after tok)]
        /\ sends t = 1%nat)
  /\ (~ (exists uid u tok,
           orField (userId after) (user_id after) = Val uid /\ uid <> ""
           /\ readFault w (UsersDocGet uid) = None
           /\ users w !! uid = Some u /\ fcmToken u = Val tok /\ tok <> "") ->
      sends t = 0%nat /\ forall m, ~ In (Send m) t).
Proof.
  intros Hbs Hps. cbv zeta. split_and!.
  - apply booking_sends_le_1.
  - intros m Hin.
    destruct (booking_sends_le_1 w id before after) as (_ & Hsent & _).
    apply Hsent in Hin as [tok ->]. simpl.
    apply strictEq_false in Hbs.
    unfold bookingText. rewrite Hbs. simpl.
    split; [by destruct (bookingStatusSwitch _ _)|].
    unfold bookingStatusSwitch, paymentTitles.
    repeat (destruct (strictEq (bookingStatus after) _)); simpl;
      intros H; repeat (destruct H as [H|H]; try discriminate H); done.
  - intros uid u tok Huid Hne Hrd Hu Htok Htne.
    assert (E : (run (sendBookingStatusNotification id before after) w).2
                = [UsersDocGet uid; Send (bookingPayload id before after tok)])
      by (eapply booking_run_reachable; eauto).
    by rewrite E.
  - intros Hno. rewrite booking_run.
    assert (Hnil : sends [] = 0%nat /\ forall m, ~ In (Send m) [])
      by (split; [reflexivity|intros m []]).
    assert (Hread : forall uid,
               sends [UsersDocGet uid] = 0%nat
               /\ forall m, ~ In (Send m) [UsersDocGet uid]).
    { intros uid. split; [reflexivity|]. intros m [Hin|[]]. discriminate Hin. }
    apply strictEq_false in Hbs. rewrite Hbs. cbn [andb]. cbv zeta.
    destruct (truthy (orField _ _)) eqn:Huid; [|apply Hnil]. cbn [negb].
    destruct (readFault w _) eqn:Hrd; [apply Hread|].
    destruct (truthy (fcmTokenOf _)) eqn:Htok; [|apply Hread]. exfalso.
    apply truthy_is_Val in Huid as [Huid Hne].
    apply truthy_is_Val in Htok as [Htok Htne].
    destruct (users w !! theString (orField (userId after) (user_id after)))
      as [u|] eqn:Hu; [|discriminate Htok].
    apply Hno. eexists _, u, _. split_and!; eauto.
Qed.

Lemma booking_both_changed_witness :
  (let t := (run (sendBookingStatusNotification "b1"
                    (booking "pending" "pending" "1")
                    (booking "confirmed" "paid" "1")) scenarioWorld).2 in
   t = [UsersDocGet "1";
        Send (bookingPayload "b1" (booking "pending" "pending" "1")
                (booking "confirmed" "paid" "1") "tA")]
   /\ sends t = 1%nat)
  /\ sends (run (sendBookingStatusNotification "b1"
                   (booking "pending" "pending" "3")
                   (booking "confirmed" "paid" "3")) scenarioWorld).2
     = 0%nat.
Proof.
  split.
  - refine (proj1 (proj2 (proj2 (booking_both_changed scenarioWorld "b1"
              (booking "pending" "pending" "1")
              (booking "confirmed" "paid" "1") _ _))) "1" user1 "tA"
              _ _ _ _ _ _).
    + discriminate.
    + discriminate.
    + reflexivity.
    + discriminate.
    + reflexivity.
    + reflexivity.
    + reflexivity.
    + discriminate.
  - refine (proj1 (proj2 (proj2 (proj2 (booking_both_changed scenarioWorld
              "b1" (booking "pending" "pending" "3")
              (booking "confirmed" "paid" "3") _ _))) _)).
    + discriminate.
    + discriminate.
    + intros (uid & u & tok & Huid & _ & _ & Hu & Htok & _).
      injection Huid as <-. vm_compute in Hu. injection Hu as <-.
      discriminate Htok.
Defined.

(** The handler stops at the missing token whatever changed: both statuses
    change for a booking of user 3, who has no push token, and the run is
    one lookup and no send. *)
Lemma both_changed_no_token :
  run (sendBookingStatusNotification "b1" (booking "pending" "pending" "3")
         (booking "confirmed" "paid" "3")) scenarioWorld
  = (Returned None, [UsersDocGet "3"])
  /\ sends (run (sendBookingStatusNotification "b1"
                   (booking "pending" "pending" "3")
                   (booking "confirmed" "paid" "3")) scenarioWorld).2
     = 0%nat.
Proof. split; by vm_compute. Qed.

(** C6: a booking update event in which neither the booking status nor the
    payment status differs between the snapshots is a no-op: the handler
    returns with an empty log, so zero lookups, zero sends and zero writes,
    whatever else differs between the snapshots. *)
Theorem booking_guard_noop (w : world) (id : string)
    (before after : bookingData) :
  bookingStatus before = bookingStatus after ->
  paymentStatus before = paymentStatus after ->
  run (sendBookingStatusNotification id before after) w = (Returned None, [])
  /\ lookups (run (sendBookingStatusNotification id before after) w).2 = 0%nat
  /\ sends (run (sendBookingStatusNotification id before after) w).2 = 0%nat
  /\ writes (run (sendBookingStatusNotification id before after) w).2 = 0%nat.
Proof.
  intros Hbs Hps. apply strictEq_true in Hbs, Hps.
  rewrite booking_run, Hbs, Hps. done.
Qed.

Lemma booking_guard_noop_witness :
  run (sendBookingStatusNotification "b1" (booking "confirmed" "paid" "1")
         (booking "confirmed" "paid" "2")) scenarioWorld
  = (Returned None, []).
Proof.
  refine (proj1 (booking_guard_noop scenarioWorld "b1"
            (booking "confirmed" "paid" "1")
            (booking "confirmed" "paid" "2") _ _)); reflexivity.
Defined.

(** ** Listing approval notifications *)

Lemma farmhouse_run (w : world) (id : string) (before after : farmhouseData) :
  run (sendFarmhouseStatusNotification id before after) w =
  if strictEq (isApproved before) (isApproved after)
  then (Returned None, [])
  else
    let ownerId := orField (ownerId after) (owner_id after) in
    if negb (truthy ownerId) then (Returned None, [])
    else
      match readFault w (UsersDocGet (theString ownerId)) with
      | Some _ => (Returned None, [UsersDocGet (theString ownerId)])
      | None =>
        let fcmToken := fcmTokenOf (users w !! theString ownerId) in
        if negb (truthy fcmToken)
        then (Returned None, [UsersDocGet (theString ownerId)])
        else
          let payload := farmhousePayload id after (theString fcmToken) in
          (match deliver w payload with
           | Returned _ => Returned (Some true)
           | Threw _ => Returned None
           end,
           [UsersDocGet (theString ownerId); Send payload])
      end.
Proof.
  unfold run, sendFarmhouseStatusNotification.
  destruct (strictEq _ _); [reflexivity|].
  unfold tryCatch, bind. cbv zeta.
  destruct (truthy (orField _ _)); [|reflexivity]. simpl.
  unfold answerRead. destruct (readFault w _); [reflexivity|]. simpl.
  destruct (truthy (fcmTokenOf _)); [|reflexivity]. simpl.
  by destruct (deliver w _).
Qed.

Lemma farmhouse_sent (w : world) (id : string) (before after : farmhouseData)
    (m : tokenMessage) :
  In (Send m) (run (sendFarmhouseStatusNotification id before after) w).2 ->
  exists tok, m = farmhousePayload id after tok.
Proof.
  rewrite farmhouse_run.
  destruct (strictEq _ _); [intros []|]. cbv zeta.
  destruct (negb (truthy (orField _ _))); [intros []|].
  destruct (readFault w _); [intros [H|[]]; discriminate H|].
  destruct (negb (truthy (fcmTokenOf _))); [intros [H|[]]; discriminate H|].
  intros [H|[H|[]]]; [discriminate H|]. injection H as <-. by eexists.
Qed.

(** C9: for every listing update event, if [isApproved] is unchanged the
    handler makes no call at all, so zero sends; if it changed to approved,
    the notification sent is the congratulatory one that names the listing;
    any other change of [isApproved] gives the generic status-updated
    text. *)
Theorem listing_approval_notification (w : world) (id : string)
    (before after : farmhouseData) :
  let t := (run (sendFarmhouseStatusNotification id before after) w).2 in
  (isApproved before = isApproved after -> t = [] /\ sends t = 0%nat)
  /\ (isApproved before <> isApproved after ->
      isApproved after = Val true ->
      forall m, In (Send m) t ->
        notification m
        = {| n_title := "Farmhouse Approved!";
             n_body := farmhouseNameOf after
                       +:+ " has been approved and is now live!" |})
  /\ (isApproved before <> isApproved after ->
      isApproved after <> Val true ->
      forall m, In (Send m) t ->
        notification m
        = {| n_title := "Farmhouse Status Update";
             n_body := farmhouseNameOf after
                       +:+ " status has been updated." |})
  /\ (forall n, name after = Val n -> n <> "" -> farmhouseNameOf after = n)
  /\ (forall uid u tok,
        isApproved before <> isApproved after ->
        orField (ownerId after) (owner_id after) = Val uid -> uid <> "" ->
        readFault w (UsersDocGet uid) = None ->
        users w !! uid = Some u -> fcmToken u = Val tok -> tok <> "" ->
        t = [UsersDocGet uid; Send (farmhousePayload id after tok)]).
Proof.
  cbv zeta. split_and!.
  - intros Heq. apply strictEq_true in Heq. by rewrite farmhouse_run, Heq.
  - intros _ Happ m Hin. apply farmhouse_sent in Hin as [tok ->].
    simpl. unfold farmhouseText. by rewrite Happ.
  - intros _ Happ m Hin. apply farmhouse_sent in Hin as [tok ->].
    simpl. unfold farmhouseText.
    destruct (isApproved after) as [| |[]]; done.
  - intros n Hn Hne. unfold farmhouseNameOf, orField. rewrite Hn.
    apply truthy_string_Val in Hne as Hne'. rewrite Hne'. simpl.
    unfold truthy in Hne'. by rewrite Hne'.
  - intros uid u tok Hch Huid Hne Hrd Hu Htok Htne.
    apply strictEq_false in Hch. rewrite farmhouse_run, Hch. cbv zeta.
    rewrite Huid. apply truthy_string_Val in Hne, Htne. rewrite Hne. simpl.
    rewrite Hrd, Hu. simpl. by rewrite Htok, Htne.
Qed.

Lemma listing_approval_notification_witness :
  (run (sendFarmhouseStatusNotification "f1" (farmhouse false "Green Acres" "1")
          (farmhouse true "Green Acres" "1")) scenarioWorld).2
  = [UsersDocGet "1";
     Send {| token := "tA";
             notification :=
               {| n_title := "Farmhouse Approved!";
                  n_body := "Green Acres has been approved and is now live!" |};
             data := [("farmhouseId", Val "f1");
                      ("type", Val "farmhouse_update");
                      ("isApproved", Val "true")];
             android := androidLiteral;
             apns := apnsLiteral |}].
Proof.
  refine (proj2 (proj2 (proj2 (proj2
            (listing_approval_notification scenarioWorld "f1"
               (farmhouse false "Green Acres" "1")
               (farmhouse true "Green Acres" "1")))))
            "1" user1 "tA" _ _ _ _ _ _ _).
  - discriminate.
  - reflexivity.
  - discriminate.
  - reflexivity.
  - reflexivity.
  - reflexivity.
  - discriminate.
Defined.

(** ** The manual send *)

Lemma manual_run (w : world) (data : field manualData)
    (auth : callableContext) :
  run (sendManualNotification data auth) w =
  match auth with
  | None =>
    (Threw (HttpsError unauthenticated "User must be authenticated"), [])
  | Some uid =>
    match readFault w (UsersDocGet uid) with
    | Some err => (Threw err, [UsersDocGet uid])
    | None =>
      if negb (strictEq (roleOf (users w !! uid)) (Val "admin")) then
        (Threw (HttpsError permission_denied
                  "Only admins can send notifications"),
         [UsersDocGet uid])
      else
        match data with
        | Val d =>
          if negb (truthy (md_title d)) || negb (truthy (md_body d))
             || negb (truthy (md_tokens d))
             || (length (theList (md_tokens d)) =? 0)%nat then
            (Threw (HttpsError invalid_argument
                      "Missing required fields: title, body, or tokens"),
             [UsersDocGet uid])
          else
            (match multicast w (manualPayload d) with
             | Returned response =>
               Returned {| success := true;
                           r_successCount := successCount response;
                           r_failureCount := failureCount response |}
             | Threw _ =>
               Threw (HttpsError internal "Failed to send notification")
             end,
             [UsersDocGet uid; SendEachForMulticast (manualPayload d)])
        | _ => (Threw (destructuringError data), [UsersDocGet uid])
        end
    end
  end.
Proof.
  unfold run, sendManualNotification. destruct auth as [uid|]; [|reflexivity].
  unfold bind, usersDocGet, call, answerRead. simpl.
  destruct (readFault w _); [reflexivity|].
  destruct (negb (strictEq _ _)); [reflexivity|].
  destruct data as [| |d]; [reflexivity|reflexivity|].
  destruct (_ || _); [reflexivity|].
  unfold tryCatch, bind, sendEachForMulticast, call. simpl.
  by destruct (multicast w _).
Qed.

Lemma missingRequired_test (d : manualData) :
  missingRequired d <->
  negb (truthy (md_title d)) || negb (truthy (md_body d))
  || negb (truthy (md_tokens d))
  || (length (theList (md_tokens d)) =? 0)%nat = true.
Proof.
  unfold missingRequired.
  rewrite !orb_true_iff, !negb_true_iff, Nat.eqb_eq, length_zero_iff_nil.
  tauto.
Qed.

(** An admin's call without payload stops at the destructuring, with a
    [TypeError] and before any transport call. *)
Lemma manual_send_without_payload (w : world) (data : field manualData)
    (uid : string) :
  callerIsAdmin w uid -> (forall d, data <> Val d) ->
  run (sendManualNotification data (Some uid)) w
  = (Threw (destructuringError data), [UsersDocGet uid]).
Proof.
  intros [Hrd Hrole] Hno. rewrite manual_run, Hrd, Hrole. simpl.
  destruct data as [| |d]; [done|done|]. by destruct (Hno d).
Qed.

(** The admin of the staff world calls without payload: one lookup, the
    [TypeError], no transport call. *)
Lemma admin_call_without_payload :
  run (sendManualNotification Null (Some "9")) staffWorld
  = (Threw (JsError
              "Cannot destructure property 'title' of 'data' as it is null."),
     [UsersDocGet "9"])
  /\ sends (run (sendManualNotification Null (Some "9")) staffWorld).2
     = 0%nat.
Proof. split; by vm_compute. Qed.

(** C7 (as amended): an invocation of the manual send with a missing title,
    a missing body or an empty token list (a call without payload
    included) fails, and makes zero transport calls, whatever the caller's
    role; when the caller is an authenticated admin and the call carries a
    payload, the failure is the invalid-argument error; for any other
    caller the authorization error comes first (unauthenticated, or
    permission-denied), and the invalid-argument code differs from both. *)
Theorem manual_send_validation (w : world) (data : field manualData)
    (auth : callableContext) :
  payloadMissing data ->
  let r := (run (sendManualNotification data auth) w).1 in
  let t := (run (sendManualNotification data auth) w).2 in
  sends t = 0%nat
  /\ (exists e, r = Threw e)
  /\ (forall uid d,
        auth = Some uid -> callerIsAdmin w uid -> data = Val d ->
        r = Threw (HttpsError invalid_argument
                     "Missing required fields: title, body, or tokens"))
  /\ (auth = None ->
      r = Threw (HttpsError unauthenticated "User must be authenticated"))
  /\ (forall uid,
        auth = Some uid -> callerIsNotAdmin w uid ->
        r = Threw (HttpsError permission_denied
                     "Only admins can send notifications"))
  /\ invalid_argument <> unauthenticated
  /\ invalid_argument <> permission_denied.
Proof.
  intros Hmiss. cbv zeta. rewrite manual_run.
  assert (Htest : forall d, data = Val d ->
             negb (truthy (md_title d)) || negb (truthy (md_body d))
             || negb (truthy (md_tokens d))
             || (length (theList (md_tokens d)) =? 0)%nat = true).
  { intros d ->. by apply missingRequired_test. }
  split_and!; try discriminate.
  - destruct auth as [uid|]; [|done].
    destruct (readFault w _); [done|].
    destruct (negb (strictEq _ _)); [done|].
    destruct data as [| |d]; [done|done|]. by rewrite Htest.
  - destruct auth as [uid|]; [|by eexists].
    destruct (readFault w _); [by eexists|].
    destruct (negb (strictEq _ _)); [by eexists|].
    destruct data as [| |d]; [by eexists|by eexists|].
    rewrite Htest by done. by eexists.
  - intros uid d -> [Hrd Hrole] ->. rewrite Hrd, Hrole. simpl.
    by rewrite Htest.
  - by intros ->.
  - intros uid -> [Hrd Hrole]. apply strictEq_false in Hrole.
    by rewrite Hrd, Hrole.
Qed.

Lemma manual_send_validation_witness :
  (run (sendManualNotification (Val (manualRequest [])) (Some "9"))
     staffWorld).1
  = Threw (HttpsError invalid_argument
             "Missing required fields: title, body, or tokens").
Proof.
  refine (proj1 (proj2 (proj2
            (manual_send_validation staffWorld (Val (manualRequest []))
               (Some "9") _))) "9" (manualRequest []) eq_refl _ eq_refl).
  - right. right. right. reflexivity.
  - split; reflexivity.
Defined.

(** C7 (as stated) fails: an authenticated caller who is not an admin and
    passes an empty token list gets permission-denied, not
    invalid-argument. *)
Lemma non_admin_empty_tokens :
  payloadMissing (Val (manualRequest []))
  /\ run (sendManualNotification (Val (manualRequest [])) (Some "1"))
       staffWorld
     = (Threw (HttpsError permission_denied
                 "Only admins can send notifications"),
        [UsersDocGet "1"])
  /\ (run (sendManualNotification (Val (manualRequest [])) (Some "1"))
        staffWorld).1
     <> Threw (HttpsError invalid_argument
                 "Missing required fields: title, body, or tokens").
Proof.
  split; [right; right; right; reflexivity|]. split; by vm_compute.
Qed.

(** C10: whatever the manual send returns has [success = true] and carries
    the success and failure counts of the transport; no failure is
    returned: an unauthenticated caller, a non-admin caller, missing
    title/body/tokens and a transport exception each end in a thrown error
    (for missing fields the invalid-argument error when the call carries a
    payload, the [TypeError] of the destructuring when it carries none),
    and the transport exception becomes the internal error with a fixed
    message, whatever was thrown. *)
Theorem manual_send_results (w : world) (data : field manualData)
    (auth : callableContext) :
  let r := (run (sendManualNotification data auth) w).1 in
  (forall v,
      r = Returned v ->
      success v = true
      /\ exists d response,
          data = Val d
          /\ multicast w (manualPayload d) = Returned response
          /\ r_successCount v = successCount response
          /\ r_failureCount v = failureCount response)
  /\ (auth = None ->
      r = Threw (HttpsError unauthenticated "User must be authenticated"))
  /\ (forall uid,
        auth = Some uid -> callerIsNotAdmin w uid ->
        r = Threw (HttpsError permission_denied
                     "Only admins can send notifications"))
  /\ (forall uid,
        auth = Some uid -> callerIsAdmin w uid -> payloadMissing data ->
        exists e,
          r = Threw e
          /\ (forall d, data = Val d ->
                e = HttpsError invalid_argument
                      "Missing required fields: title, body, or tokens")
          /\ ((forall d, data <> Val d) -> e = destructuringError data))
  /\ (forall uid d e,
        auth = Some uid -> callerIsAdmin w uid ->
        data = Val d -> ~ missingRequired d ->
        multicast w (manualPayload d) = Threw e ->
        r = Threw (HttpsError internal "Failed to send notification")).
Proof.
  cbv zeta. rewrite manual_run. split_and!.
  - intros v. destruct auth as [uid|]; [|done].
    destruct (readFault w _); [done|].
    destruct (negb (strictEq _ _)); [done|].
    destruct data as [| |d]; [done|done|].
    destruct (_ || _); [done|]. simpl.
    destruct (multicast w _) as [response|e] eqn:Hmc; [|done].
    intros [= <-]. simpl. split; [done|]. by exists d, response.
  - by intros ->.
  - intros uid -> [Hrd Hrole]. apply strictEq_false in Hrole.
    by rewrite Hrd, Hrole.
  - intros uid -> [Hrd Hrole] Hmiss. rewrite Hrd, Hrole. simpl.
    destruct data as [| |d].
    + eexists. split_and!; [done|done|done].
    + eexists. split_and!; [done|done|done].
    + simpl in Hmiss. apply missingRequired_test in Hmiss. rewrite Hmiss.
      eexists. split_and!; [done|done|]. intros Hno. by destruct (Hno d).
  - intros uid d e -> [Hrd Hrole] -> Hok Hmc.
    rewrite missingRequired_test in Hok. apply not_true_is_false in Hok.
    rewrite Hrd, Hrole, Hok. simpl. by rewrite Hmc.
Qed.

Lemma manual_send_results_witness :
  (exists d response,
      Val (manualRequest ["tA"]) = Val d
      /\ multicast staffWorld (manualPayload d) = Returned response
      /\ 1%Z = successCount response /\ 0%Z = failureCount response)
  /\ (run (sendManualNotification (Val (manualRequest ["tA"])) (Some "9"))
        {| users := users staffWorld;
           readFault := fun _ => None;
           multicast := transportDown;
           deliver := fun _ => Returned tt;
           store := fun _ => Returned tt;
           now := now staffWorld |}).1
     = Threw (HttpsError internal "Failed to send notification").
Proof.
  split.
  - refine (proj2 (proj1 (manual_send_results staffWorld
              (Val (manualRequest ["tA"])) (Some "9"))
              {| success := true; r_successCount := 1; r_failureCount := 0 |}
              _)).
    reflexivity.
  - refine (proj2 (proj2 (proj2 (proj2
              (manual_send_results _ (Val (manualRequest ["tA"]))
                 (Some "9")))))
              "9" (manualRequest ["tA"])
              (JsError "messaging/server-unavailable") eq_refl _ eq_refl _ _).
    + split; reflexivity.
    + intros [H|[H|[H|H]]]; discriminate H.
    + reflexivity.
Defined.

(** * Further properties of the handlers *)

(** ** Fire-and-forget triggers *)

Lemma lookups_nil : lookups [] = 0%nat.
Proof. reflexivity. Qed.





(** ** More on the broadcast trigger *)

(** X3: When the user lookup of a broadcast rejects with an error of message
    [m], the transport is never called and the record gets
    [notificationSent = false] with [notificationError = m]. *)
Theorem broadcast_read_failure (w : world) (id : string)
    (c : communicationData) (t0 : trace) (e : thrown) (m : string) :
  run (resolveRecipientTokens c) w = (Threw e, t0) ->
  errorMessage e = Some m ->
  let t := (run (sendCommunicationNotification id c) w).2 in
  t = t0 ++ [Update {| notificationSent := false;
                       notificationSentAt := None;
                       deliveryStatus := None;
                       notificationError := Some m |}]
  /\ sends t = 0%nat.
Proof.
  unfold run at 1. intros Hres Hm. cbv zeta.
  rewrite communication_run, Hres. simpl.
  apply resolve_only_lookups, only_lookups in Hres as (Hs & _).
  assert (Hmsg : messageOf e = m) by (destruct e; simpl in *; congruence).
  unfold errorUpdate. by rewrite Hmsg, sends_app, Hs.
Qed.

Lemma broadcast_read_failure_witness :
  (run (sendCommunicationNotification "c1" (broadcast "all_users"))
     unreadableWorld).2
  = [UsersGet;
     Update {| notificationSent := false;
               notificationSentAt := None;
               deliveryStatus := None;
               notificationError := Some "unavailable" |}].
Proof.
  refine (proj1 (broadcast_read_failure unreadableWorld "c1"
            (broadcast "all_users") [UsersGet] (JsError "unavailable")
            "unavailable" _ _)); reflexivity.
Defined.

(** X4: When the transport accepted the batch but the store rejects the
    delivery record, the [catch] block runs: the transport is not called
    again, a second update is issued, and that update marks the broadcast
    [notificationSent = false] with the store's error although the pushes
    went out; the handler then returns [null] instead of the response. *)
Theorem broadcast_record_rejected (w : world) (id : string)
    (c : communicationData) (toks : list string) (t0 : trace)
    (response : batchResponse) (e : thrown) :
  run (resolveRecipientTokens c) w = (Returned toks, t0) ->
  toks <> [] ->
  multicast w (communicationPayload id c toks (now w)) = Returned response ->
  store w (deliveredUpdate response) = Threw e ->
  let r := (run (sendCommunicationNotification id c) w).1 in
  let t := (run (sendCommunicationNotification id c) w).2 in
  t = t0 ++ [SendEachForMulticast (communicationPayload id c toks (now w));
             Update (deliveredUpdate response);
             Update {| notificationSent := false;
                       notificationSentAt := None;
                       deliveryStatus := None;
                       notificationError := Some (messageOf e) |}]
  /\ sends t = 1%nat /\ writes t = 2%nat
  /\ (completedWrites w t <= 1)%nat
  /\ (store w (errorUpdate e) = Returned tt -> r = Returned None).
Proof.
  unfold run at 1. intros Hres Hne Hmc Hst. cbv zeta.
  rewrite communication_run, Hres.
  apply resolve_only_lookups, only_lookups in Hres as (Hs & Hw & Hcw & _).
  destruct toks as [|tok toks]; [done|]. cbv zeta. rewrite Hmc, Hst.
  simpl. rewrite sends_app, writes_app, completedWrites_app, Hs, Hw, Hcw.
  unfold completedWrites, caught. simpl. rewrite Hst.
  split_and!; try done.
  - destruct (store w (errorUpdate e)); simpl; lia.
  - by intros ->.
Qed.

Lemma broadcast_record_rejected_witness :
  run (sendCommunicationNotification "c1" (broadcast "all_users"))
    flakyStoreWorld
  = (Returned None,
     [UsersGet;
      SendEachForMulticast
        (communicationPayload "c1" (broadcast "all_users") ["tA"; "tB"]
           (now flakyStoreWorld));
      Update (deliveredUpdate {| successCount := 2; failureCount := 0 |});
      Update {| notificationSent := false;
                notificationSentAt := None;
                deliveryStatus := None;
                notificationError := Some "deadline-exceeded" |}]).
Proof.
  pose proof (broadcast_record_rejected flakyStoreWorld "c1"
                (broadcast "all_users") ["tA"; "tB"] [UsersGet]
                {| successCount := 2; failureCount := 0 |}
                (JsError "deadline-exceeded")) as H.
  cbv zeta in H.
  destruct H as (Ht & _ & _ & _ & Hr);
    [by vm_compute | discriminate | reflexivity | reflexivity |].
  rewrite (surjective_pairing (run _ _)), Ht, Hr; reflexivity.
Defined.

(** X5: Every batch the broadcast trigger hands to the transport has at least
    one token, none of them empty, a non-empty title and the id of the
    triggering record in its data; the trigger makes at most one user
    query and at most one transport call. *)
Theorem broadcast_payload_invariant (w : world) (id : string)
    (c : communicationData) :
  let t := (run (sendCommunicationNotification id c) w).2 in
  (lookups t <= 1)%nat /\ (sends t <= 1)%nat
  /\ forall payload,
      In (SendEachForMulticast payload) t ->
      tokens payload <> [] /\ ~ In "" (tokens payload)
      /\ n_title (mc_notification payload) <> ""
      /\ In ("communicationId", Val id) (mc_data payload).
Proof.
  cbv zeta. rewrite communication_run.
  assert (Htitle : orDefault (title c) "New Message" <> "").
  { destruct (title c) as [| |s]; simpl; try done.
    unfold truthyVal, truthy_string.
    destruct (String.eqb s "") eqn:E; simpl; [done|].
    by apply String.eqb_neq. }
  destruct (resolveRecipientTokens c w []) as [r t0] eqn:Hres.
  pose proof (resolve_tokens_stored _ _ _ _ Hres) as (Hs & _ & Hst).
  assert (Hl : (lookups t0 <= 1)%nat).
  { destruct (resolve_inv w c) as [(q & docs & Hq & _ & E)|E];
      rewrite E in Hres; injection Hres as <- <-;
      unfold lookups; simpl; [rewrite Hq|]; simpl; lia. }
  apply resolve_only_lookups, only_lookups in Hres as (_ & _ & _ & Hlk).
  assert (Hpre : forall p, In (SendEachForMulticast p) t0 -> False)
    by (intros p Hin; by apply Hlk in Hin).
  assert (Hla : forall l, Forall (fun e => isLookup e = false) l ->
                          (lookups (t0 ++ l) <= 1)%nat).
  { intros l Hf. unfold lookups in *. rewrite List.filter_app, length_app.
    replace (List.filter isLookup l) with (@nil effect); [simpl; lia|].
    induction Hf as [|x l Hx _ IH]; [done|]. simpl. by rewrite Hx. }
  destruct r as [[|tok toks]|e]; simpl.
  - split_and!; [done|lia|]. intros p Hin. by destruct (Hpre p).
  - specialize (Hst _ eq_refl).
    assert (Hok : forall p,
               p = communicationPayload id c (tok :: toks) (now w) ->
               tokens p <> [] /\ ~ In "" (tokens p)
               /\ n_title (mc_notification p) <> ""
               /\ In ("communicationId", Val id) (mc_data p)).
    { intros p ->. simpl. split_and!; [done| |done|by left].
      intros Hin. rewrite List.Forall_forall in Hst.
      apply Hst in Hin as [Hne _]. done. }
    destruct (multicast w _) as [response|e];
      [destruct (store w (deliveredUpdate response)) as [[]|e]|];
      simpl; (split_and!;
        [apply Hla; repeat constructor
        |rewrite sends_app, Hs; unfold sends; simpl; lia
        |intros p; rewrite in_app_iff; simpl;
         intros [Hin|Hin]; [by destruct (Hpre p)|];
         repeat (destruct Hin as [Hin|Hin]; try discriminate Hin);
         try (by destruct Hin);
         injection Hin as <-; by apply Hok]).
  - split_and!;
      [apply Hla; repeat constructor
      |rewrite sends_app, Hs; unfold sends; simpl; lia|].
    intros p. rewrite in_app_iff. simpl.
    intros [Hin|[Hin|[]]]; [by destruct (Hpre p)|done].
Qed.

Lemma broadcast_payload_invariant_witness :
  tokens (communicationPayload "c1" (broadcast "all_users") ["tA"; "tB"]
            (now scenarioWorld)) <> [].
Proof.
  refine (proj1 (proj2 (proj2 (broadcast_payload_invariant scenarioWorld
            "c1" (broadcast "all_users"))) _ _)).
  vm_compute. right. by left.
Defined.

(** X6: The broadcast trigger returns the transport's response exactly when the
    batch was accepted by the transport and its delivery record by the
    store; it rejects only when the update of its [catch] block is
    rejected, and in every other case it returns [null]. *)
Theorem broadcast_return_value (w : world) (id : string)
    (c : communicationData) :
  let r := (run (sendCommunicationNotification id c) w).1 in
  let t := (run (sendCommunicationNotification id c) w).2 in
  (forall response,
      r = Returned (Some response) <->
      exists payload,
        In (SendEachForMulticast payload) t
        /\ multicast w payload = Returned response
        /\ store w (deliveredUpdate response) = Returned tt)
  /\ (forall e', r = Threw e' ->
        exists e, In (Update (errorUpdate e)) t
                  /\ store w (errorUpdate e) = Threw e').
Proof.
  cbv zeta. rewrite communication_run. unfold caught.
  destruct (resolveRecipientTokens c w []) as [r t0] eqn:Hres.
  apply resolve_only_lookups, only_lookups in Hres as (_ & _ & _ & Hlk).
  assert (Hpre : forall p, In (SendEachForMulticast p) t0 -> False)
    by (intros p Hin; by apply Hlk in Hin).
  destruct r as [[|tok toks]|e]; simpl.
  - split; [|done]. intros response. split; [done|].
    intros (p & Hin & _). by destruct (Hpre p).
  - destruct (multicast w _) as [response|e] eqn:Hmc;
      [destruct (store w (deliveredUpdate response)) as [[]|e] eqn:Hst|];
      simpl.
    + split; [|done]. intros resp. split.
      * intros [= <-]. eexists. split_and!; [|exact Hmc|exact Hst].
        apply in_app_iff. right. by left.
      * intros (p & Hin & Hp & _). apply in_app_iff in Hin as [Hin|Hin];
          [by destruct (Hpre p)|].
        destruct Hin as [Hin|[Hin|[]]]; [|done].
        injection Hin as <-. congruence.
    + split.
      * intros resp. split; [by destruct (store w (errorUpdate e))|].
        intros (p & Hin & Hp & Hs). apply in_app_iff in Hin as [Hin|Hin];
          [by destruct (Hpre p)|].
        destruct Hin as [Hin|[Hin|[Hin|[]]]]; try done.
        injection Hin as <-. rewrite Hmc in Hp. injection Hp as <-.
        congruence.
      * intros e'. destruct (store w (errorUpdate e)) eqn:Hse; [done|].
        intros [= <-]. exists e. split; [|done].
        apply in_app_iff. right. right. right. by left.
    + split.
      * intros resp. split; [by destruct (store w (errorUpdate e))|].
        intros (p & Hin & Hp & Hs). apply in_app_iff in Hin as [Hin|Hin];
          [by destruct (Hpre p)|].
        destruct Hin as [Hin|[Hin|[]]]; try done.
        injection Hin as <-. congruence.
      * intros e'. destruct (store w (errorUpdate e)) eqn:Hse; [done|].
        intros [= <-]. exists e. split; [|done].
        apply in_app_iff. right. right. by left.
  - split.
    + intros resp. split; [by destruct (store w (errorUpdate e))|].
      intros (p & Hin & _). apply in_app_iff in Hin as [Hin|Hin];
        [by destruct (Hpre p)|].
      by destruct Hin as [Hin|[]].
    + intros e'. destruct (store w (errorUpdate e)) eqn:Hse; [done|].
      intros [= <-]. exists e. split; [|done].
      apply in_app_iff. right. by left.
Qed.

Lemma broadcast_return_value_witness :
  exists payload,
    In (SendEachForMulticast payload)
      (run (sendCommunicationNotification "c1" (broadcast "all_users"))
         scenarioWorld).2
    /\ multicast scenarioWorld payload
       = Returned {| successCount := 2; failureCount := 0 |}
    /\ store scenarioWorld
         (deliveredUpdate {| successCount := 2; failureCount := 0 |})
       = Returned tt.
Proof.
  refine (proj1 (proj1 (broadcast_return_value scenarioWorld "c1"
            (broadcast "all_users"))
            {| successCount := 2; failureCount := 0 |}) _).
  by vm_compute.
Defined.

(** ** More on the manual send *)

(** X7: Authorization comes before everything else in the manual send: an
    unauthenticated call makes no external call at all; an authenticated
    caller who is not an admin costs one user lookup and no transport call,
    however valid the request is; an admin's complete request reaches the
    transport exactly once, with the caller's tokens, title, body and data,
    and gives back [success = true] with the counts reported.  This holds
    whatever the call carries, a missing payload included. *)
Theorem manual_send_authorization (w : world) (data : field manualData)
    (auth : callableContext) :
  let r := (run (sendManualNotification data auth) w).1 in
  let t := (run (sendManualNotification data auth) w).2 in
  (auth = None -> t = [])
  /\ (forall uid,
        auth = Some uid -> callerIsNotAdmin w uid -> t = [UsersDocGet uid])
  /\ (forall uid d toks ttl bdy,
        auth = Some uid -> callerIsAdmin w uid -> data = Val d ->
        md_title d = Val ttl -> ttl <> "" ->
        md_body d = Val bdy -> bdy <> "" ->
        md_tokens d = Val toks -> toks <> [] ->
        exists payload,
          t = [UsersDocGet uid; SendEachForMulticast payload]
          /\ tokens payload = toks
          /\ mc_notification payload = {| n_title := ttl; n_body := bdy |}
          /\ (forall extra, md_data d = Val extra -> mc_data payload = extra)
          /\ (forall response,
                multicast w payload = Returned response ->
                r = Returned {| success := true;
                                r_successCount := successCount response;
                                r_failureCount := failureCount response |})).
Proof.
  cbv zeta. rewrite manual_run. split_and!.
  - by intros ->.
  - intros uid -> [Hrd Hrole]. apply strictEq_false in Hrole.
    by rewrite Hrd, Hrole.
  - intros uid d toks ttl bdy -> [Hrd Hrole] -> Ht Htne Hb Hbne Htk Htkne.
    rewrite Hrd, Hrole. cbn [negb]. cbv iota. rewrite Ht, Hb, Htk.
    apply truthy_string_Val in Htne, Hbne. rewrite Htne, Hbne. simpl.
    destruct toks as [|tok toks]; [done|]. simpl.
    exists (manualPayload d). unfold manualPayload.
    rewrite Ht, Hb, Htk. simpl. split_and!; try done.
    + by intros extra ->.
    + by intros response ->.
Qed.

Lemma manual_send_authorization_witness :
  exists payload,
    (run (sendManualNotification (Val (manualRequest ["tA"])) (Some "9"))
       staffWorld).2
    = [UsersDocGet "9"; SendEachForMulticast payload]
    /\ tokens payload = ["tA"].
Proof.
  destruct (proj2 (proj2 (manual_send_authorization staffWorld
              (Val (manualRequest ["tA"])) (Some "9")))
              "9" (manualRequest ["tA"]) ["tA"] "Hi" "Hello" eq_refl)
    as (payload & Ht & Htok & _).
  - split; reflexivity.
  - reflexivity.
  - reflexivity.
  - discriminate.
  - reflexivity.
  - discriminate.
  - reflexivity.
  - discriminate.
  - exists payload. by split.
Defined.

(** Splits a conjunction of bounds on the calls of a concrete log and
    closes the bounds. *)
Ltac count_calls :=
  split_and!; try done;
  try (unfold lookups, sends, writes; simpl; lia).

(** X8: The manual send never writes to the store and makes at most one lookup
    and one transport call; when the lookup of the caller's user document
    rejects, the store's error reaches the caller as it is (it is not
    turned into an [HttpsError]) and nothing is sent.  This holds whatever
    the call carries, a missing payload included. *)
Theorem manual_send_effects (w : world) (data : field manualData)
    (auth : callableContext) :
  let r := (run (sendManualNotification data auth) w).1 in
  let t := (run (sendManualNotification data auth) w).2 in
  writes t = 0%nat /\ (lookups t <= 1)%nat /\ (sends t <= 1)%nat
  /\ (forall uid e,
        auth = Some uid -> readFault w (UsersDocGet uid) = Some e ->
        r = Threw e /\ sends t = 0%nat).
Proof.
  cbv zeta. rewrite manual_run.
  destruct auth as [uid|]; [|count_calls].
  destruct (readFault w (UsersDocGet uid)) as [e|] eqn:Hrd.
  { count_calls. intros uid' e' [= <-]. rewrite Hrd. by intros [= <-]. }
  destruct (negb (strictEq _ _));
    [count_calls; by intros uid' e' [= <-]; rewrite Hrd|].
  destruct data as [| |d];
    [count_calls; by intros uid' e' [= <-]; rewrite Hrd
    |count_calls; by intros uid' e' [= <-]; rewrite Hrd|].
  destruct (_ || _);
    [count_calls; by intros uid' e' [= <-]; rewrite Hrd|].
  count_calls. by intros uid' e' [= <-]; rewrite Hrd.
Qed.

Lemma manual_send_effects_witness :
  (run (sendManualNotification (Val (manualRequest ["tA"])) (Some "9"))
     unreadableWorld).1 = Threw (JsError "unavailable").
Proof.
  refine (proj1 (proj2 (proj2 (proj2 (manual_send_effects unreadableWorld
            (Val (manualRequest ["tA"])) (Some "9")))) "9"
            (JsError "unavailable")
            eq_refl _)).
  reflexivity.
Defined.

(** * The admin pages and the triggers *)

(** An update that names none of the fields a view reads leaves the view
    as it was. *)
Lemma stringField_updateDoc (data d : document) (k : string) :
  data !! k = None -> stringField (updateDoc data d) k = stringField d k.
Proof.
  intros H. unfold stringField, updateDoc. by rewrite lookup_union_r.
Qed.

(** A field that the update names takes the value written. *)
Lemma stringField_updateDoc_written (data d : document) (k : string)
    (v : docValue) :
  data !! k = Some v -> stringField (updateDoc data d) k = stringField data k.
Proof.
  intros H. unfold stringField, updateDoc.
  by rewrite (lookup_union_Some_l _ _ _ _ H), H.
Qed.


Lemma bookingView_updateDoc (data d : document) :
  data !! "bookingStatus" = None -> data !! "paymentStatus" = None ->
  data !! "userId" = None -> data !! "user_id" = None ->
  bookingView (updateDoc data d) = bookingView d.
Proof.
  intros H1 H2 H3 H4. unfold bookingView.
  by rewrite !stringField_updateDoc.
Qed.


(** The booking trigger on two snapshots with the same statuses. *)
Lemma booking_same_statuses (w : world) (id : string) (b a : bookingData) :
  bookingStatus b = bookingStatus a -> paymentStatus b = paymentStatus a ->
  run (sendBookingStatusNotification id b a) w = (Returned None, []).
Proof.
  intros Hbs Hps. apply strictEq_true in Hbs, Hps.
  by rewrite booking_run, Hbs, Hps.
Qed.

(** X9: Editing a booking (dates, guests, price) or cancelling it from the
    bookings page never notifies its user: both writes leave
    [bookingStatus] and [paymentStatus] alone (the cancellation sets
    [status]), so the trigger they fire returns at its guard without any
    call. *)
Theorem bookings_page_edit_and_cancel_silent (w : world) (bookingId : string)
    (d : document) (b : bookingData) (data : document) :
  bookingView d = Some b ->
  (exists checkIn checkOut guests totalPrice,
      data = saveEditData checkIn checkOut guests totalPrice)
  \/ (exists cancelReason email, data = cancelBookingData cancelReason email) ->
  bookingView (updateDoc data d) = Some b
  /\ onBookingUpdate w bookingId d (updateDoc data d)
     = Some (Returned None, []).
Proof.
  intros Hb Hdata.
  assert (Hv : bookingView (updateDoc data d) = Some b).
  { rewrite bookingView_updateDoc; [done|..];
      destruct Hdata as [(? & ? & ? & ? & ->)|(? & ? & ->)]; reflexivity. }
  split; [done|]. unfold onBookingUpdate. rewrite Hb, Hv. simpl.
  f_equal. by apply booking_same_statuses.
Qed.

Lemma bookings_page_edit_and_cancel_silent_witness :
  onBookingUpdate scenarioWorld "b1" (bookingDoc "confirmed" "paid")
    (updateDoc (cancelBookingData "guest request" Null)
       (bookingDoc "confirmed" "paid"))
  = Some (Returned None, []).
Proof.
  refine (proj2 (bookings_page_edit_and_cancel_silent scenarioWorld "b1"
            (bookingDoc "confirmed" "paid") (booking "confirmed" "paid" "1")
            (cancelBookingData "guest request" Null) _ _)).
  - reflexivity.
  - right. by exists "guest request", Null.
Defined.

(** X10: Processing a refund from the bookings page sets [paymentStatus] to
    [refunded] and nothing else the trigger reads.  If the booking was not
    refunded before and its user holds a push token, the trigger sends that
    user exactly the payment-refunded message; if the booking was already
    refunded, the trigger does nothing. *)
Theorem bookings_page_refund_notifies (w : world) (bookingId : string)
    (d : document) (b : bookingData) (refundAmount : Z)
    (email : field string) :
  bookingView d = Some b ->
  let after := updateDoc (processRefundData refundAmount email) d in
  let a := {| bookingStatus := bookingStatus b;
              paymentStatus := Val "refunded";
              userId := userId b;
              user_id := user_id b |} in
  bookingView after = Some a
  /\ (paymentStatus b = Val "refunded" ->
      onBookingUpdate w bookingId d after = Some (Returned None, []))
  /\ (forall uid u tok,
        paymentStatus b <> Val "refunded" ->
        orField (userId b) (user_id b) = Val uid -> uid <> "" ->
        readFault w (UsersDocGet uid) = None ->
        users w !! uid = Some u -> fcmToken u = Val tok -> tok <> "" ->
        exists r,
          onBookingUpdate w bookingId d after
          = Some (r,
                  [UsersDocGet uid;
                   Send {| token := tok;
                           notification :=
                             {| n_title := "Payment Refunded";
                                n_body := "Your payment has been refunded." |};
                           data := [("bookingId", Val bookingId);
                                    ("type", Val "booking_update");
                                    ("bookingStatus", bookingStatus b);
                                    ("paymentStatus", Val "refunded")];
                           android := androidLiteral;
                           apns := apnsLiteral |}])).
Proof.
  intros Hb. cbv zeta.
  assert (Hv : bookingView (updateDoc (processRefundData refundAmount email) d)
               = Some {| bookingStatus := bookingStatus b;
                         paymentStatus := Val "refunded";
                         userId := userId b;
                         user_id := user_id b |}).
  { unfold bookingView in *.
    rewrite (stringField_updateDoc _ d "bookingStatus"),
      (stringField_updateDoc _ d "userId"),
      (stringField_updateDoc _ d "user_id") by reflexivity.
    rewrite (stringField_updateDoc_written _ d "paymentStatus"
               (DString "refunded")) by reflexivity.
    replace (stringField (processRefundData refundAmount email)
               "paymentStatus")
      with (Some (Val "refunded" : field string)) by reflexivity.
    destruct (stringField d "bookingStatus"); [|done].
    destruct (stringField d "paymentStatus"); [|done].
    destruct (stringField d "userId"); [|done].
    destruct (stringField d "user_id"); [|done].
    simpl in *. by injection Hb as <-. }
  split_and!; [done|..].
  - intros Hps. unfold onBookingUpdate. rewrite Hb, Hv. simpl. f_equal.
    by apply booking_same_statuses.
  - intros uid u tok Hps Huid Hne Hrd Hu Htok Htne.
    unfold onBookingUpdate. rewrite Hb, Hv. simpl.
    eexists. f_equal. rewrite (surjective_pairing (run _ _)). f_equal.
    erewrite booking_run_reachable; eauto.
    unfold bookingPayload, bookingText, paymentStatusSwitch. simpl.
    rewrite strictEq_refl. simpl.
    apply strictEq_false in Hps. by rewrite Hps.
Qed.

Lemma bookings_page_refund_notifies_witness :
  exists r,
    onBookingUpdate scenarioWorld "b1" (bookingDoc "cancelled" "paid")
      (updateDoc (processRefundData 4500 Null) (bookingDoc "cancelled" "paid"))
    = Some (r,
            [UsersDocGet "1";
             Send {| token := "tA";
                     notification :=
                       {| n_title := "Payment Refunded";
                          n_body := "Your payment has been refunded." |};
                     data := [("bookingId", Val "b1");
                              ("type", Val "booking_update");
                              ("bookingStatus", Val "cancelled");
                              ("paymentStatus", Val "refunded")];
                     android := androidLiteral;
                     apns := apnsLiteral |}]).
Proof.
  refine (proj2 (proj2 (bookings_page_refund_notifies scenarioWorld "b1"
            (bookingDoc "cancelled" "paid") (booking "cancelled" "paid" "1")
            4500 Null _)) "1" user1 "tA" _ _ _ _ _ _ _).
  - reflexivity.
  - discriminate.
  - reflexivity.
  - discriminate.
  - reflexivity.
  - reflexivity.
  - reflexivity.
  - discriminate.
Defined.



(** The document the Communication Center writes, as the trigger reads
    it: it never carries a recipient id or a recipient role. *)
Lemma communicationView_composed (recipientType subject message : string)
    (email : field string) (count : nat) :
  communicationView (composedMessage recipientType subject message email count)
  = Some {| recipientType := Val recipientType;
            recipientId := Undefined;
            recipientRole := Undefined;
            title := Val subject;
            message := Val message;
            type := Val "admin_message" |}.
Proof. reflexivity. Qed.

Lemma truthyTokens_length (docs : list (string * userData)) :
  (length (truthyTokens docs) <= length docs)%nat.
Proof.
  unfold truthyTokens. rewrite length_map.
  etransitivity; [apply List.filter_length_le|]. by rewrite length_map.
Qed.

(** X12: A message composed in the Communication Center for any recipient type
    other than [all_users] (all owners, farmhouse owners, active users, a
    specific user) produces no push at all: the trigger reads no user,
    calls no transport and writes nothing back, whatever recipient count
    the page computed and showed. *)
Theorem page_selectors_without_push (w : world) (communicationId : string)
    (recipientType subject message : string) (email : field string)
    (count : nat) :
  recipientType <> "all_users" ->
  onCommunicationCreate w communicationId
    (composedMessage recipientType subject message email count)
  = Some (Returned None, []).
Proof.
  intros Hty. unfold onCommunicationCreate.
  rewrite communicationView_composed. simpl. f_equal.
  rewrite communication_run.
  assert (E : resolveRecipientTokens
                {| recipientType := Val recipientType;
                   recipientId := Undefined;
                   recipientRole := Undefined;
                   title := Val subject;
                   message := Val message;
                   type := Val "admin_message" |} w [] = (Returned [], [])).
  { unfold resolveRecipientTokens. simpl.
    replace (strictEq (Val recipientType) (Val "all_users")) with false.
    - by rewrite !andb_false_r.
    - symmetry. apply strictEq_false. congruence. }
  by rewrite E.
Qed.

Lemma page_selectors_without_push_witness :
  onCommunicationCreate scenarioWorld "c1"
    (composedMessage "all_owners" "Hi" "Hello" Null
       (recipientCountOf "all_owners" (allUsers staffWorld) []))
  = Some (Returned None, []).
Proof.
  apply (page_selectors_without_push scenarioWorld "c1" "all_owners").
  discriminate.
Defined.

(** X13: A message composed for [all_users] while some user holds a token is
    pushed in one batch to the stored tokens of all users, as many at most
    as the recipient count the page showed, under the subject and message
    the admin typed and with type [admin_message]. *)
Theorem page_all_users_push (w : world) (communicationId : string)
    (subject message : string) (email : field string)
    (farmhousesSnap : list (string * farmhouseData)) :
  noReadFault w ->
  truthyTokens (allUsers w) <> [] ->
  subject <> "" ->
  let count := recipientCountOf "all_users" (allUsers w) farmhousesSnap in
  let payload :=
    {| tokens := truthyTokens (allUsers w);
       mc_notification := {| n_title := subject; n_body := message |};
       mc_data := [("communicationId", Val communicationId);
                   ("type", Val "admin_message");
                   ("timestamp", Val (now w))];
       mc_android := androidLiteral;
       mc_apns := apnsLiteral |} in
  (length (tokens payload) <= count)%nat
  /\ exists r rest,
      onCommunicationCreate w communicationId
        (composedMessage "all_users" subject message email count)
      = Some (r, UsersGet :: SendEachForMulticast payload :: rest).
Proof.
  intros Hok Htok Hsub. cbv zeta. split; [apply truthyTokens_length|].
  unfold onCommunicationCreate. rewrite communicationView_composed. simpl.
  rewrite communication_run, resolve_all_users by reflexivity. rewrite Hok.
  destruct (truthyTokens (allUsers w)) as [|tok toks] eqn:E; [done|].
  assert (Hp : communicationPayload communicationId
                 {| recipientType := Val "all_users";
                    recipientId := Undefined;
                    recipientRole := Undefined;
                    title := Val subject;
                    message := Val message;
                    type := Val "admin_message" |} (tok :: toks) (now w)
               = {| tokens := tok :: toks;
                    mc_notification :=
                      {| n_title := subject; n_body := message |};
                    mc_data := [("communicationId", Val communicationId);
                                ("type", Val "admin_message");
                                ("timestamp", Val (now w))];
                    mc_android := androidLiteral;
                    mc_apns := apnsLiteral |}).
  { unfold communicationPayload. simpl.
    apply truthy_string_Val in Hsub. unfold truthy in Hsub. rewrite Hsub.
    destruct (truthyVal message) eqn:Hm; [done|].
    unfold truthyVal, truthy_string in Hm.
    apply negb_false_iff, String.eqb_eq in Hm. by rewrite Hm. }
  cbv zeta. rewrite Hp.
  destruct (multicast w _) as [response|e];
    [destruct (store w (deliveredUpdate response)) as [[]|e]|];
    simpl; by eexists _, _.
Qed.

Lemma page_all_users_push_witness :
  exists r rest,
    onCommunicationCreate scenarioWorld "c1"
      (composedMessage "all_users" "Hi" "Hello" Null 3)
    = Some (r,
            UsersGet
            :: SendEachForMulticast
                 {| tokens := ["tA"; "tB"];
                    mc_notification := {| n_title := "Hi"; n_body := "Hello" |};
                    mc_data := [("communicationId", Val "c1");
                                ("type", Val "admin_message");
                                ("timestamp", Val (now scenarioWorld))];
                    mc_android := androidLiteral;
                    mc_apns := apnsLiteral |}
            :: rest).
Proof.
  refine (proj2 (page_all_users_push scenarioWorld "c1" "Hi" "Hello" Null []
            _ _ _)).
  - intros e. reflexivity.
  - by vm_compute.
  - discriminate.
Defined.

(** * Properties of the utilities *)

(** ** Trimming and the length checks *)

Lemma trimStart_nil_iff (s : ustring) :
  trimStart s = [] <-> forallb isWhiteSpace s = true.
Proof.
  induction s as [|c s IH]; simpl; [done|].
  destruct (isWhiteSpace c); simpl; [done|]. split; discriminate.
Qed.

Lemma trimStart_head (s : ustring) (c : N) (r : ustring) :
  trimStart s = c :: r -> isWhiteSpace c = false.
Proof.
  induction s as [|d s IH]; simpl; [done|].
  destruct (isWhiteSpace d) eqn:E; [done|]. by intros [= <- _].
Qed.

Lemma trimStart_suffix (s : ustring) :
  exists ws, s = ws ++ trimStart s /\ forallb isWhiteSpace ws = true.
Proof.
  induction s as [|c s (ws & Hs & Hws)]; simpl; [by exists []|].
  destruct (isWhiteSpace c) eqn:E.
  - exists (c :: ws). simpl. rewrite E, Hws. split; [by f_equal|done].
  - by exists [].
Qed.

Lemma forallb_rev {A} (f : A -> bool) (l : list A) :
  forallb f (rev l) = forallb f l.
Proof.
  induction l as [|x l IH]; [done|]. simpl.
  rewrite forallb_app, IH. simpl. by rewrite andb_true_r, andb_comm.
Qed.

Lemma forallb_false_ex {A} (f : A -> bool) (l : list A) :
  forallb f l = false -> exists x, In x l /\ f x = false.
Proof.
  induction l as [|x l IH]; simpl; [done|].
  destruct (f x) eqn:E; simpl.
  - intros H. destruct (IH H) as (y & Hy & Hf). exists y. auto.
  - intros _. exists x. auto.
Qed.

(** Trimming leaves nothing exactly when every code unit is white space. *)
Lemma trim_nil_iff (s : ustring) :
  trim s = [] <-> forallb isWhiteSpace s = true.
Proof.
  unfold trim, trimEnd. split.
  - intros H. apply (f_equal (@rev N)) in H. rewrite rev_involutive in H.
    simpl in H. apply trimStart_nil_iff in H. rewrite forallb_rev in H.
    destruct (trimStart s) as [|c r] eqn:E; [by apply trimStart_nil_iff|].
    apply trimStart_head in E. simpl in H. by rewrite E in H.
  - intros H. apply trimStart_nil_iff in H. by rewrite H.
Qed.

Lemma trim_length (s : ustring) : (length (trim s) <= length s)%nat.
Proof.
  assert (Hs : forall t : ustring, (length (trimStart t) <= length t)%nat).
  { intros t. destruct (trimStart_suffix t) as (ws & Ht & _).
    rewrite Ht at 2. rewrite length_app. lia. }
  unfold trim, trimEnd. rewrite length_rev.
  etransitivity; [apply Hs|]. rewrite length_rev. apply Hs.
Qed.

(** X14: The three length checks of [validation.ts] against each other:
    [isNonEmptyString] is [hasMinLength] with minimum 1; on a non-empty
    value, a maximum of [n] holds exactly when a minimum of [n + 1] fails;
    the empty string fails every minimum, even 0 or a negative one, and
    passes every maximum, even a negative one; and a value is a non-empty
    string exactly when one of its code units is not white space. *)
Theorem length_checks_related (value : ustring) (n : Z) :
  isNonEmptyString value = hasMinLength value 1
  /\ (value <> [] -> hasMaxLength value n = negb (hasMinLength value (n + 1)))
  /\ hasMinLength [] n = false
  /\ hasMaxLength [] n = true
  /\ (isNonEmptyString value = true <->
      exists c, In c value /\ isWhiteSpace c = false).
Proof.
  split_and!.
  - unfold isNonEmptyString, hasMinLength. f_equal.
    apply eq_true_iff_eq. rewrite Z.ltb_lt, Z.leb_le. lia.
  - intros Hne. unfold hasMaxLength, hasMinLength.
    destruct value; [done|]. cbn [nonEmpty negb orb andb].
    apply eq_true_iff_eq. rewrite negb_true_iff, Z.leb_le, Z.leb_gt. lia.
  - reflexivity.
  - reflexivity.
  - unfold isNonEmptyString. rewrite andb_true_iff, Z.ltb_lt. unfold len.
    split.
    + intros [_ Hlen].
      destruct (forallb isWhiteSpace value) eqn:E.
      * apply trim_nil_iff in E. rewrite E in Hlen. simpl in Hlen. lia.
      * by apply forallb_false_ex in E.
    + intros (c & Hin & Hc). split; [by destruct value|].
      destruct (trim value) eqn:E; [|simpl; lia].
      apply trim_nil_iff in E. rewrite forallb_forall in E.
      apply E in Hin. congruence.
Qed.

Lemma length_checks_related_witness :
  hasMaxLength (u " ab ") 2 = negb (hasMinLength (u " ab ") (2 + 1)).
Proof.
  refine (proj1 (proj2 (length_checks_related (u " ab ") 2)) _).
  discriminate.
Defined.

(** ** truncateText *)

Lemma substring_prefix (s : ustring) (m : Z) :
  (m < len s)%Z -> substring s 0 m = take (Z.to_nat m) s.
Proof.
  intros Hm. unfold substring. cbv zeta. unfold len in *.
  replace (Z.min (Z.max 0 0) (Z.of_nat (length s))) with 0%Z by lia.
  replace (Z.min (Z.max m 0) (Z.of_nat (length s))) with (Z.max m 0) by lia.
  replace (Z.min 0 (Z.max m 0)) with 0%Z by lia.
  replace (Z.max 0 (Z.max m 0) - 0)%Z with (Z.max m 0) by lia.
  simpl. f_equal. lia.
Qed.

(** X15: A text no longer than the limit comes back as it is, and so does the
    empty text whatever the limit.  A longer, non-empty one is cut to its
    first [maxLength] code units (none when the limit is negative) followed
    by three dots, so the result is three code units longer than the limit
    and may be longer than the text was.  Truncating twice is the same as
    truncating once. *)
Theorem truncateText_shape (text : ustring) (maxLength : Z) :
  ((len text <= maxLength)%Z -> truncateText text maxLength = text)
  /\ truncateText [] maxLength = []
  /\ (text <> [] -> (maxLength < len text)%Z ->
      truncateText text maxLength
      = take (Z.to_nat maxLength) text ++ u "..."
      /\ len (truncateText text maxLength) = (Z.max maxLength 0 + 3)%Z)
  /\ truncateText (truncateText text maxLength) maxLength
     = truncateText text maxLength.
Proof.
  assert (Hshort : (len text <= maxLength)%Z ->
                   truncateText text maxLength = text).
  { intros H. unfold truncateText. destruct text; [done|].
    cbn [nonEmpty negb]. apply Z.leb_le in H. by rewrite H. }
  assert (Hlong : text <> [] -> (maxLength < len text)%Z ->
                  truncateText text maxLength
                  = take (Z.to_nat maxLength) text ++ u "..."
                  /\ len (truncateText text maxLength)
                     = (Z.max maxLength 0 + 3)%Z).
  { intros Hne H. unfold truncateText.
    destruct text as [|c text]; [done|].
    cbn [nonEmpty negb]. apply Z.leb_gt in H as H'. rewrite H'.
    rewrite substring_prefix by done. split; [done|].
    unfold len in *. rewrite length_app, length_take. simpl length in *. lia. }
  split_and!; [done|done|done|].
  destruct text as [|c text]; [done|].
  destruct (Z_le_gt_dec (len (c :: text)) maxLength) as [H|H].
  - by rewrite !Hshort.
  - destruct Hlong as [E Hl]; [done|lia|]. rewrite E at 1.
    unfold truncateText at 1.
    replace (nonEmpty (take (Z.to_nat maxLength) (c :: text) ++ u "..."))
      with true by (by destruct (take _ (c :: text))).
    cbn [negb]. rewrite <- E.
    replace (len (truncateText (c :: text) maxLength) <=? maxLength)%Z
      with false by (symmetry; apply Z.leb_gt; lia).
    rewrite substring_prefix by lia. rewrite E.
    rewrite take_app_le by (rewrite length_take; unfold len in H; lia).
    by rewrite take_take, Nat.min_id.
Qed.

Lemma truncateText_shape_witness :
  truncateText (u "farmhouse") 4 = u "farm...".
Proof.
  refine (proj1 (proj1 (proj2 (proj2 (truncateText_shape (u "farmhouse") 4)))
            _ _)).
  - discriminate.
  - reflexivity.
Defined.

(** ** batchProcess *)

Lemma slice_batch {A} (l : list A) (i batchSize : Z) :
  (0 <= i < Z.of_nat (length l))%Z -> (0 < batchSize)%Z ->
  slice l i (i + batchSize)
  = take (Z.to_nat batchSize) (drop (Z.to_nat i) l).
Proof.
  intros Hi Hb. unfold slice. cbv zeta.
  replace (i <? 0)%Z with false by (symmetry; apply Z.ltb_ge; lia).
  replace (i + batchSize <? 0)%Z with false by (symmetry; apply Z.ltb_ge; lia).
  replace (Z.min i (Z.of_nat (length l))) with i by lia.
  destruct (Z_le_gt_dec (i + batchSize) (Z.of_nat (length l))) as [H|H].
  - f_equal. lia.
  - rewrite !take_ge; [done|rewrite length_drop; lia..].
Qed.

(** The loop with a positive batch size, from an index [i] reached by
    whole steps: it ends within as many rounds as there are items left, and
    the batches it hands over cut the remaining items, in order, into
    non-empty pieces of at most [batchSize] items, all full but the last;
    a rejection of [processFn] ends it at once. *)
Lemma batchLoop_positive {T R} (items : list T) (batchSize : Z)
    (processFn : list T -> outcome R) :
  (0 < batchSize)%Z ->
  forall fuel i results calls,
    (0 <= i)%Z ->
    (length (drop (Z.to_nat i) items) < fuel)%nat ->
    exists out new,
      batchLoop fuel items batchSize processFn i results calls
      = Some (out, calls ++ new)
      /\ concat new `prefix_of` drop (Z.to_nat i) items
      /\ Forall (fun b => 0 < length b <= Z.to_nat batchSize)%nat new
      /\ (forall pre b post,
            new = pre ++ b :: post -> post <> [] ->
            length b = Z.to_nat batchSize)
      /\ match out with
         | Returned rs =>
           exists rs',
             rs = results ++ rs'
             /\ Forall2 (fun b r => processFn b = Returned r) new rs'
             /\ concat new = drop (Z.to_nat i) items
         | Threw e =>
           exists pre b,
             new = pre ++ [b] /\ processFn b = Threw e
             /\ Forall (fun b' => exists r, processFn b' = Returned r) pre
         end.
Proof.
  intros Hb. induction fuel as [|fuel IH]; intros i results calls Hi Hfuel;
    [lia|].
  simpl. destruct (i <? Z.of_nat (length items))%Z eqn:Hlt.
  - apply Z.ltb_lt in Hlt. rewrite slice_batch by lia.
    set (rem := drop (Z.to_nat i) items) in *.
    set (n := Z.to_nat batchSize).
    assert (Hrem : (0 < length rem)%nat)
      by (unfold rem; rewrite length_drop; lia).
    assert (Hbatch : (0 < length (take n rem) <= n)%nat)
      by (rewrite length_take; lia).
    destruct (processFn (take n rem)) as [result|e] eqn:Hf.
    + assert (Hdrop : drop (Z.to_nat (i + batchSize)) items = drop n rem).
      { unfold rem. rewrite drop_drop. f_equal. lia. }
      destruct (IH (i + batchSize)%Z (results ++ [result])
                  (calls ++ [take n rem]))
        as (out & new & Hrun & Hpre & Hsz & Hfull & Hout).
      { lia. }
      { rewrite Hdrop, length_drop. lia. }
      exists out, (take n rem :: new). rewrite Hrun, <- app_assoc.
      rewrite Hdrop in *. split_and!; [done|..].
      * simpl. destruct Hpre as [k Hk]. exists k.
        rewrite <- app_assoc, <- Hk. by rewrite take_drop.
      * by constructor.
      * intros pre b post Hnew Hpost.
        destruct pre as [|b0 pre]; simpl in Hnew.
        -- injection Hnew as Eb Epost. rewrite <- Eb.
           assert (drop n rem <> []).
           { destruct Hpre as [k Hk]. rewrite Epost in Hsz, Hk.
             destruct post as [|p post]; [done|].
             inversion Hsz as [|? ? Hp _]; subst.
             destruct p; [simpl in Hp; lia|]. by rewrite Hk. }
           rewrite length_take.
           assert (length (drop n rem) <> 0%nat) by (by destruct (drop n rem)).
           rewrite length_drop in *. lia.
        -- injection Hnew as _ ->. by eapply Hfull.
      * destruct out as [rs|e].
        -- destruct Hout as (rs' & -> & Hall & Hcat).
           exists (result :: rs'). rewrite <- app_assoc. split_and!; [done|..].
           ++ by constructor.
           ++ simpl. by rewrite Hcat, take_drop.
        -- destruct Hout as (pre & b & -> & Hfb & Hall).
           exists (take n rem :: pre), b. split_and!; [done|done|].
           constructor; [by eexists|done].
    + exists (Threw e), [take n rem]. split_and!; [done|..].
      * simpl. rewrite app_nil_r. exists (drop n rem). by rewrite take_drop.
      * constructor; [done|constructor].
      * intros pre b post Hnew Hpost. destruct pre as [|? [|? ?]];
          simpl in Hnew; [by injection Hnew as _ <-|done|done].
      * exists [], (take n rem). by split_and!.
  - apply Z.ltb_ge in Hlt. exists (Returned results), [].
    rewrite app_nil_r. split_and!; [done|..].
    + by exists (drop (Z.to_nat i) items).
    + constructor.
    + intros pre b post Hnew. by destruct pre.
    + exists []. rewrite app_nil_r. split_and!; [done|constructor|].
      simpl. symmetry. apply drop_ge. lia.
Qed.



(** X16: With a positive batch size, [batchProcess] ends within one round per
    item, and it returns exactly when [processFn] accepts every batch it
    is given.  Then the batches it was given are the items, in order, cut
    into non-empty pieces of at most [batchSize] items, every piece but
    the last one full, and the results are those of the batches, one each,
    in order. *)
Theorem batchProcess_partition {T R} (fuel : nat) (items : list T)
    (batchSize : Z) (processFn : list T -> outcome R) :
  (0 < batchSize)%Z -> (length items < fuel)%nat ->
  exists out calls,
    batchProcess fuel items batchSize processFn = Some (out, calls)
    /\ Forall (fun b => 0 < length b <= Z.to_nat batchSize)%nat calls
    /\ (forall pre b post,
          calls = pre ++ b :: post -> post <> [] ->
          length b = Z.to_nat batchSize)
    /\ (Forall (fun b => exists r, processFn b = Returned r) calls ->
        exists results, out = Returned results)
    /\ (forall results,
          out = Returned results ->
          concat calls = items
          /\ Forall2 (fun b r => processFn b = Returned r) calls results).
Proof.
  intros Hb Hfuel.
  destruct (batchLoop_positive items batchSize processFn Hb fuel 0 [] [])
    as (out & new & Hrun & _ & Hsz & Hfull & Hout); [lia|done|].
  exists out, new. split_and!; try done.
  - intros Hall. destruct out as [rs|e]; [by eexists|].
    destruct Hout as (pre & b & -> & Hrej & _).
    apply List.Forall_app in Hall as [_ Hlast].
    inversion Hlast as [|? ? [r Hr] _]; subst. congruence.
  - intros results ->. by destruct Hout as (rs' & -> & Hall & ->).
Qed.

Lemma batchProcess_partition_witness :
  exists results calls,
    batchProcess 6 [1; 2; 3; 4; 5]%nat 2 (fun b => Returned (length b))
    = Some (Returned results, calls)
    /\ concat calls = [1; 2; 3; 4; 5]%nat
    /\ Forall2 (fun b r => Returned (length b) = Returned r) calls results.
Proof.
  destruct (batchProcess_partition 6 [1; 2; 3; 4; 5]%nat 2
              (fun b => Returned (length b)))
    as (out & calls & Hrun & _ & _ & Hret & Hparts); [lia|simpl; lia|].
  destruct Hret as [results ->].
  - apply List.Forall_forall. intros b _. by eexists.
  - exists results, calls. split; [exact Hrun|]. by apply Hparts.
Defined.



(** X18: With a batch size of zero or less and at least one item, the loop
    never ends on its own: whatever the number of rounds, [batchProcess]
    has not returned; only a rejection of [processFn] gets out of it. *)
Theorem batchProcess_never_ends {T R} (fuel : nat) (items : list T)
    (batchSize : Z) (processFn : list T -> outcome R) :
  (batchSize <= 0)%Z -> items <> [] ->
  (forall results calls,
      batchProcess fuel items batchSize processFn
      <> Some (Returned results, calls))
  /\ ((forall b, exists r, processFn b = Returned r) ->
      batchProcess fuel items batchSize processFn = None).
Proof.
  intros Hb Hne.
  assert (Hlen : (0 < Z.of_nat (length items))%Z)
    by (destruct items; [done|simpl; lia]).
  assert (Hloop : forall f i rs cs,
             (i <= 0)%Z ->
             (forall results calls,
                 @batchLoop T R f items batchSize processFn i rs cs
                 <> Some (Returned results, calls))
             /\ ((forall b, exists r, processFn b = Returned r) ->
                 batchLoop f items batchSize processFn i rs cs = None)).
  { induction f as [|f IH]; intros i rs cs Hi; simpl; [done|].
    replace (i <? Z.of_nat (length items))%Z with true
      by (symmetry; apply Z.ltb_lt; lia).
    destruct (processFn _) as [r|e] eqn:Hf.
    - apply IH. lia.
    - split; [done|]. intros Hall.
      destruct (Hall (slice items i (i + batchSize))) as [r Hr]. congruence. }
  by apply Hloop.
Qed.

Lemma batchProcess_never_ends_witness :
  batchProcess 1000 [1; 2; 3]%nat 0 (fun b => Returned (length b)) = None.
Proof.
  refine (proj2 (batchProcess_never_ends 1000 [1; 2; 3]%nat 0
            (fun b => Returned (length b)) _ _) _).
  - lia.
  - discriminate.
  - intros b. by eexists.
Defined.

(** ** exportToCSV *)

Section CsvProperties.

Context {cell : Type} (toString : cell -> ustring).

Lemma readLine_field (v cur : ustring) (fields : list ustring)
    (rest : ustring) :
  readLine InField cur fields (doubleQuotes v ++ 34%N :: rest)
  = readLine QuoteSeen (cur ++ v) fields rest.
Proof.
  revert cur. induction v as [|c v IH]; intros cur; simpl.
  - by rewrite app_nil_r.
  - destruct (c =? 34)%N eqn:E; simpl.
    + apply N.eqb_eq in E as ->. rewrite IH. by rewrite <- app_assoc.
    + rewrite E, IH. by rewrite <- app_assoc.
Qed.

Lemma readLine_row (row : list cell) (fields : list ustring) :
  row <> [] ->
  readLine ExpectField [] fields (csvLine cell toString row)
  = Some (fields ++ map toString row).
Proof.
  revert fields. induction row as [|v row IH]; intros fields Hne; [done|].
  destruct row as [|v' row].
  - unfold csvLine, escapeCSVValue. simpl.
    by rewrite readLine_field.
  - unfold csvLine in *. cbn [map join]. unfold escapeCSVValue at 1.
    cbn [app]. cbn [readLine N.eqb Pos.eqb].
    rewrite <- app_assoc. cbn [app]. rewrite readLine_field. simpl.
    rewrite IH by done. by rewrite <- app_assoc.
Qed.

(** X19: The line that [exportToCSV] writes for a row can be read back: taking
    each field between its quotes and each doubled quote for one gives
    the strings of the row's cells, whatever commas, quotes or line
    breaks they contain; so two rows with the same line have the same
    cell strings.  With no data row, nothing is written: the function
    throws [No data to export]. *)
Theorem csv_line_round_trip (row : list cell) :
  readLine ExpectField [] [] (csvLine cell toString row)
  = Some (map toString row)
  /\ (forall row',
        csvLine cell toString row = csvLine cell toString row' ->
        map toString row = map toString row')
  /\ (forall headers filename,
        exportToCSV cell toString headers [] filename
        = Threw (JsError "No data to export")).
Proof.
  assert (Hread : forall r,
             readLine ExpectField [] [] (csvLine cell toString r)
             = Some (map toString r)).
  { intros [|v r]; [done|]. by rewrite readLine_row. }
  split_and!; [done| |done].
  intros row' Heq. pose proof (Hread row) as H1.
  rewrite Heq, Hread in H1. by injection H1.
Qed.

End CsvProperties.

(** ** Patterns and their languages *)

Lemma lang_never_inv (s : ustring) : lang Never s -> False.
Proof. inversion 1. Qed.

Lemma lang_empty_inv (s : ustring) : lang Empty s -> s = [].
Proof. by inversion 1. Qed.

Lemma lang_class_inv (p : N -> bool) (s : ustring) :
  lang (Class p) s -> exists c, s = [c] /\ p c = true.
Proof. inversion 1; subst. eauto. Qed.

Lemma lang_seq_inv (r1 r2 : regex) (s : ustring) :
  lang (Seq r1 r2) s ->
  exists s1 s2, s = s1 ++ s2 /\ lang r1 s1 /\ lang r2 s2.
Proof. inversion 1; subst. eauto. Qed.

Lemma lang_alt_inv (r1 r2 : regex) (s : ustring) :
  lang (Alt r1 r2) s -> lang r1 s \/ lang r2 s.
Proof. inversion 1; subst; auto. Qed.

Lemma nullable_lang (r : regex) : nullable r = true <-> lang r [].
Proof.
  induction r as [| |p|r1 IH1 r2 IH2|r1 IH1 r2 IH2|r IH]; simpl.
  - split; [done|]. by intros H%lang_never_inv.
  - split; [constructor|done].
  - split; [done|]. by intros (c & E & _)%lang_class_inv.
  - rewrite andb_true_iff, IH1, IH2. split.
    + intros [H1 H2]. by apply (lang_seq _ _ [] []).
    + intros (s1 & s2 & E & H1 & H2)%lang_seq_inv.
      symmetry in E. apply app_eq_nil in E as [-> ->]. done.
  - rewrite orb_true_iff, IH1, IH2. split.
    + intros [H|H]; [by apply lang_alt_l|by apply lang_alt_r].
    + by intros H%lang_alt_inv.
  - split; [constructor|done].
Qed.

(** A non-empty word of a star starts with a non-empty word of its body. *)
Lemma lang_star_cons (r : regex) (c : N) (s : ustring) :
  lang (Star r) (c :: s) ->
  exists s1 s2, s = s1 ++ s2 /\ lang r (c :: s1) /\ lang (Star r) s2.
Proof.
  intros H. remember (Star r) as r' eqn:Er. remember (c :: s) as w eqn:Ew.
  revert c s Ew.
  induction H as [| | | | | |r0 s1 s2 H1 _ H2 IH2]; try done;
    intros c s Ew; injection Er as ->.
  destruct s1 as [|c1 s1]; simpl in Ew.
  - by apply IH2.
  - injection Ew as -> <-. by exists s1, s2.
Qed.

Lemma deriv_lang (c : N) (r : regex) (s : ustring) :
  lang (deriv c r) s <-> lang r (c :: s).
Proof.
  revert s.
  induction r as [| |p|r1 IH1 r2 IH2|r1 IH1 r2 IH2|r IH]; intros s; simpl.
  - split; by intros H%lang_never_inv.
  - split; [by intros H%lang_never_inv|by intros H%lang_empty_inv].
  - destruct (p c) eqn:Hp; split.
    + intros ->%lang_empty_inv. by constructor.
    + intros (c' & [= <- ->] & _)%lang_class_inv. constructor.
    + by intros H%lang_never_inv.
    + intros (c' & [= <- ->] & Hc)%lang_class_inv. congruence.
  - assert (Hl : lang (Seq (deriv c r1) r2) s ->
                 lang (Seq r1 r2) (c :: s)).
    { intros (s1 & s2 & -> & H1 & H2)%lang_seq_inv.
      apply IH1 in H1. by apply (lang_seq _ _ (c :: s1) s2). }
    assert (Hr : lang (Seq r1 r2) (c :: s) ->
                 lang (Seq (deriv c r1) r2) s
                 \/ (lang r1 [] /\ lang (deriv c r2) s)).
    { intros (s1 & s2 & E & H1 & H2)%lang_seq_inv.
      destruct s1 as [|c1 s1]; simpl in E.
      - subst. right. split; [done|]. by apply IH2.
      - injection E as -> ->. left. constructor; [by apply IH1|done]. }
    destruct (nullable r1) eqn:Hn; split.
    + intros [H|H]%lang_alt_inv; [by apply Hl|].
      apply nullable_lang in Hn. apply (lang_seq _ _ [] (c :: s)); [done|].
      by apply IH2.
    + intros H. destruct (Hr H) as [H'|[_ H']];
        [by apply lang_alt_l|by apply lang_alt_r].
    + apply Hl.
    + intros H. destruct (Hr H) as [H'|[H' _]]; [done|].
      apply nullable_lang in H'. congruence.
  - split.
    + intros [H|H]%lang_alt_inv;
        [apply lang_alt_l; by apply IH1|apply lang_alt_r; by apply IH2].
    + intros [H|H]%lang_alt_inv;
        [apply lang_alt_l; by apply IH1|apply lang_alt_r; by apply IH2].
  - split.
    + intros (s1 & s2 & -> & H1 & H2)%lang_seq_inv.
      apply IH in H1. by apply (lang_star_more _ (c :: s1) s2).
    + intros H. apply lang_star_cons in H as (s1 & s2 & -> & H1 & H2).
      constructor; [by apply IH|done].
Qed.

(** [test] decides membership in the language. *)
Lemma test_lang (r : regex) (s : ustring) : test r s = true <-> lang r s.
Proof.
  unfold test. revert r. induction s as [|c s IH]; intros r; simpl.
  - apply nullable_lang.
  - rewrite IH. apply deriv_lang.
Qed.

Lemma lang_star_class (p : N -> bool) (s : ustring) :
  lang (Star (Class p)) s <-> forallb p s = true.
Proof.
  split.
  - intros H. remember (Star (Class p)) as r eqn:Er.
    induction H as [| | | | | |r0 s1 s2 H1 _ H2 IH2]; try done.
    injection Er as ->. apply lang_class_inv in H1 as (c & -> & Hc). simpl.
    rewrite IH2 by done. by rewrite Hc.
  - induction s as [|c t IH]; simpl; [constructor|].
    rewrite andb_true_iff. intros [Hc Ht].
    apply (lang_star_more _ [c] t); [by constructor|by apply IH].
Qed.

Lemma lang_plus_class (p : N -> bool) (s : ustring) :
  lang (Plus (Class p)) s <-> s <> [] /\ forallb p s = true.
Proof.
  unfold Plus. split.
  - intros (s1 & s2 & -> & H1 & H2)%lang_seq_inv.
    apply lang_class_inv in H1 as (c & -> & Hc). simpl.
    apply lang_star_class in H2. split; [done|]. by rewrite Hc, H2.
  - intros [Hne Hall]. destruct s as [|c s]; [done|]. simpl in Hall.
    apply andb_true_iff in Hall as [Hc Hs].
    apply (lang_seq _ _ [c] s); [by constructor|by apply lang_star_class].
Qed.

Lemma lang_times_class (n : nat) (p : N -> bool) (s : ustring) :
  lang (Times n (Class p)) s <-> length s = n /\ forallb p s = true.
Proof.
  revert s. induction n as [|n IH]; intros s; simpl.
  - split.
    + by intros ->%lang_empty_inv.
    + intros [Hl _]. destruct s; [constructor|done].
  - split.
    + intros (s1 & s2 & -> & H1 & H2)%lang_seq_inv.
      apply lang_class_inv in H1 as (c & -> & Hc).
      apply IH in H2 as [Hl Hp]. simpl.
      split; [by f_equal|]. by rewrite Hc, Hp.
    + intros [Hl Hp]. destruct s as [|c s]; [done|]. simpl in *.
      apply andb_true_iff in Hp as [Hc Hs].
      apply (lang_seq _ _ [c] s); [by constructor|].
      apply IH. split; [lia|done].
Qed.

Lemma lang_lit (w s : ustring) : lang (Lit w) s <-> s = w.
Proof.
  revert s. induction w as [|c w IH]; intros s; simpl.
  - split; [by intros ->%lang_empty_inv|intros ->; constructor].
  - split.
    + intros (s1 & s2 & -> & H1 & H2)%lang_seq_inv.
      apply lang_class_inv in H1 as (c' & -> & Hc).
      apply N.eqb_eq in Hc as ->. apply IH in H2 as ->. done.
    + intros ->. apply (lang_seq _ _ [c] w);
        [constructor; apply N.eqb_refl|by apply IH].
Qed.

(** ** Phone and Aadhaar numbers *)

Lemma isWhiteSpace_above_32 (c : N) :
  (32 < c < 160)%N -> isWhiteSpace c = false.
Proof.
  intros Hc. unfold isWhiteSpace. apply orb_false_iff. split.
  - apply bool_decide_eq_false. intros H.
    repeat (apply elem_of_cons in H as [H|H]; [lia|]).
    by apply elem_of_nil in H.
  - apply andb_false_iff. left. apply N.leb_gt. lia.
Qed.

Lemma digit_bounds (c : N) : isDigit c = true <-> (48 <= c <= 57)%N.
Proof.
  unfold isDigit, inRange. rewrite andb_true_iff, !N.leb_le. done.
Qed.

(** Digits go through both cleanings. *)
Lemma cleanPhone_digits (digits : ustring) :
  forallb isDigit digits = true -> cleanPhone digits = digits.
Proof.
  induction digits as [|c ds IH]; simpl; [done|].
  rewrite andb_true_iff. intros [Hc Hds]. apply digit_bounds in Hc.
  rewrite isWhiteSpace_above_32 by lia.
  replace (c =? 45)%N with false by (symmetry; apply N.eqb_neq; lia).
  replace (c =? 43)%N with false by (symmetry; apply N.eqb_neq; lia).
  simpl. by rewrite IH.
Qed.

Lemma cleanPhone_no_plus (phone : ustring) : ~ In 43%N (cleanPhone phone).
Proof.
  unfold cleanPhone. intros [_ H]%filter_In.
  by rewrite orb_true_r in H.
Qed.

(** What the phone pattern accepts once the input is cleaned. *)
Lemma phoneRegex_cleaned (phone : ustring) :
  test phoneRegex (cleanPhone phone) = true <->
  exists d rest,
    cleanPhone phone = d :: rest /\ inRange 54 57 d = true
    /\ length rest = 9%nat /\ forallb isDigit rest = true.
Proof.
  rewrite test_lang. unfold phoneRegex. split.
  - intros (s1 & s2 & E & H1 & H2)%lang_seq_inv.
    apply lang_alt_inv in H1 as [H1|H1].
    + apply lang_lit in H1 as ->. exfalso.
      apply (cleanPhone_no_plus phone). rewrite E. by left.
    + apply lang_empty_inv in H1 as ->. simpl in E.
      apply lang_seq_inv in H2 as (t1 & t2 & -> & Hd & Hr).
      apply lang_class_inv in Hd as (d & -> & Hd).
      apply lang_times_class in Hr as [Hl Hr]. by exists d, t2.
  - intros (d & rest & -> & Hd & Hl & Hr).
    apply (lang_seq _ _ [] (d :: rest)); [apply lang_alt_r; constructor|].
    apply (lang_seq _ _ [d] rest); [by constructor|].
    by apply lang_times_class.
Qed.

(** X20: A phone number is accepted exactly when, once white space, dashes and
    plus signs are removed, it is ten digits of which the first is 6 to 9.
    Since the plus sign is removed before matching, the optional [+91] of
    the pattern never matches: a ten-digit number written with its country
    code, with or without the plus sign, is always refused. *)
Theorem isValidPhoneNumber_ten_digits (phone : ustring) :
  (isValidPhoneNumber phone = true <->
   exists d rest,
     cleanPhone phone = d :: rest /\ inRange 54 57 d = true
     /\ length rest = 9%nat /\ forallb isDigit rest = true)
  /\ (forall digits,
        length digits = 10%nat -> forallb isDigit digits = true ->
        isValidPhoneNumber (u "+91" ++ digits) = false
        /\ isValidPhoneNumber (u "91" ++ digits) = false).
Proof.
  split.
  - unfold isValidPhoneNumber. destruct phone as [|c phone].
    + simpl. split; [done|]. by intros (d & rest & H & _).
    + cbn [nonEmpty negb]. apply phoneRegex_cleaned.
  - intros digits Hl Hd.
    assert (Hno : forall p : ustring,
               cleanPhone p = u "91" ++ digits ->
               test phoneRegex (cleanPhone p) = false).
    { intros p Hp. apply not_true_iff_false. rewrite phoneRegex_cleaned.
      intros (d & rest & E & _ & Hr & _). rewrite Hp in E.
      apply (f_equal (@length N)) in E. simpl in E. lia. }
    unfold isValidPhoneNumber. cbn [nonEmpty negb u map app].
    split; apply Hno.
    + change (u "+91" ++ digits) with ([43; 57; 49]%N ++ digits).
      unfold cleanPhone. rewrite List.filter_app.
      change (List.filter _ [43; 57; 49]%N) with [57; 49]%N.
      fold (cleanPhone digits). by rewrite cleanPhone_digits.
    + change (u "91" ++ digits) with ([57; 49]%N ++ digits).
      unfold cleanPhone. rewrite List.filter_app.
      change (List.filter _ [57; 49]%N) with [57; 49]%N.
      fold (cleanPhone digits). by rewrite cleanPhone_digits.
Qed.

Lemma isValidPhoneNumber_ten_digits_witness :
  isValidPhoneNumber (u "+91" ++ u "9876543210") = false
  /\ isValidPhoneNumber (u "91" ++ u "9876543210") = false.
Proof.
  apply (proj2 (isValidPhoneNumber_ten_digits [])); reflexivity.
Defined.

Lemma cleanAadhaar_digits (digits : ustring) :
  forallb isDigit digits = true -> cleanAadhaar digits = digits.
Proof.
  induction digits as [|c ds IH]; simpl; [done|].
  rewrite andb_true_iff. intros [Hc Hds]. apply digit_bounds in Hc.
  rewrite isWhiteSpace_above_32 by lia.
  replace (c =? 45)%N with false by (symmetry; apply N.eqb_neq; lia).
  simpl. by rewrite IH.
Qed.

(** X21: An Aadhaar number is accepted exactly when, once white space and dashes
    are removed, it is twelve digits of which the first is 2 to 9; so
    white space and dashes may be put anywhere in an accepted number, and
    taken out of it, without changing the answer. *)
Theorem isValidAadhaar_twelve_digits (aadhaar : ustring) :
  (isValidAadhaar aadhaar = true <->
   exists d rest,
     cleanAadhaar aadhaar = d :: rest /\ inRange 50 57 d = true
     /\ length rest = 11%nat /\ forallb isDigit rest = true)
  /\ (forall other,
        cleanAadhaar other = cleanAadhaar aadhaar ->
        isValidAadhaar aadhaar = true -> isValidAadhaar other = true).
Proof.
  assert (Hiff : forall a,
             isValidAadhaar a = true <->
             exists d rest,
               cleanAadhaar a = d :: rest /\ inRange 50 57 d = true
               /\ length rest = 11%nat /\ forallb isDigit rest = true).
  { intros a. unfold isValidAadhaar. destruct a as [|c a].
    - simpl. split; [done|]. by intros (d & rest & H & _).
    - cbn [nonEmpty negb]. rewrite test_lang. unfold aadhaarRegex. split.
      + intros (s1 & s2 & E & H1 & H2)%lang_seq_inv.
        apply lang_times_class in H1 as [Hl1 Hp1].
        apply lang_times_class in H2 as [Hl2 Hp2].
        destruct s1 as [|d [|? ?]]; try done. simpl in Hp1.
        rewrite andb_true_r in Hp1. by exists d, s2.
      + intros (d & rest & -> & Hd & Hl & Hr).
        apply (lang_seq _ _ [d] rest); apply lang_times_class;
          simpl; by rewrite ?Hd. }
  split; [apply Hiff|].
  intros other Hsame Hv. apply Hiff. rewrite Hsame. by apply Hiff.
Qed.

Lemma isValidAadhaar_twelve_digits_witness :
  isValidAadhaar (u "2345-6789 0123") = true.
Proof.
  refine (proj2 (isValidAadhaar_twelve_digits (u "234567890123"))
            (u "2345-6789 0123") _ _); reflexivity.
Defined.

(** ** Email addresses *)

Lemma notSpaceNorAt_spec (c : N) :
  notSpaceNorAt c = true <-> isWhiteSpace c = false /\ c <> 64%N.
Proof.
  unfold notSpaceNorAt.
  rewrite andb_true_iff, !negb_true_iff, N.eqb_neq. done.
Qed.

Lemma count_at_none (s : ustring) :
  forallb notSpaceNorAt s = true ->
  length (List.filter (N.eqb 64) s) = 0%nat
  /\ forallb (fun c => negb (isWhiteSpace c)) s = true.
Proof.
  induction s as [|c s IH]; [done|]. cbn [forallb List.filter].
  rewrite andb_true_iff. intros [Hc Hs].
  apply notSpaceNorAt_spec in Hc as [Hw Hat].
  destruct (IH Hs) as [H1 H2].
  replace (64 =? c)%N with false by (symmetry; apply N.eqb_neq; congruence).
  by rewrite Hw, H2.
Qed.

(** X22: An address is accepted exactly when it reads local part, at sign,
    name, dot, ending, each of the three parts non-empty and free of white
    space and at signs.  So an accepted address has exactly one at sign and
    no white space, and a dot follows the at sign neither at once nor as
    the last code unit; nothing else is asked of it. *)
Theorem isValidEmail_shape (email : ustring) :
  (isValidEmail email = true <->
   exists localPart name ending,
     email = localPart ++ [64%N] ++ name ++ [46%N] ++ ending
     /\ localPart <> [] /\ name <> [] /\ ending <> []
     /\ forallb notSpaceNorAt localPart = true
     /\ forallb notSpaceNorAt name = true
     /\ forallb notSpaceNorAt ending = true)
  /\ (isValidEmail email = true ->
      length (List.filter (N.eqb 64) email) = 1%nat
      /\ forallb (fun c => negb (isWhiteSpace c)) email = true).
Proof.
  assert (Hiff : isValidEmail email = true <->
                 exists localPart name ending,
                   email = localPart ++ [64%N] ++ name ++ [46%N] ++ ending
                   /\ localPart <> [] /\ name <> [] /\ ending <> []
                   /\ forallb notSpaceNorAt localPart = true
                   /\ forallb notSpaceNorAt name = true
                   /\ forallb notSpaceNorAt ending = true).
  { unfold isValidEmail. destruct email as [|c email].
    - simpl. split; [done|]. intros (l & n & e & H & _). by destruct l.
    - cbn [nonEmpty negb]. rewrite test_lang. unfold emailRegex. split.
      + intros (l & s2 & -> & Hl & H2)%lang_seq_inv.
        apply lang_seq_inv in H2 as (a & s3 & -> & Ha & H3).
        apply lang_seq_inv in H3 as (n & s4 & -> & Hn & H4).
        apply lang_seq_inv in H4 as (d & e & -> & Hd & He).
        apply lang_class_inv in Ha as (ca & -> & ->%N.eqb_eq).
        apply lang_class_inv in Hd as (cd & -> & ->%N.eqb_eq).
        apply lang_plus_class in Hl as [? ?], Hn as [? ?], He as [? ?].
        by exists l, n, e.
      + intros (l & n & e & -> & Hl & Hn & He & Pl & Pn & Pe).
        apply lang_seq; [by apply lang_plus_class|].
        apply lang_seq; [constructor; apply N.eqb_refl|].
        apply lang_seq; [by apply lang_plus_class|].
        apply lang_seq; [constructor; apply N.eqb_refl|].
        by apply lang_plus_class. }
  split; [done|].
  intros (l & n & e & -> & _ & _ & _ & Pl & Pn & Pe)%Hiff.
  destruct (count_at_none _ Pl) as [Cl Wl].
  destruct (count_at_none _ Pn) as [Cn Wn].
  destruct (count_at_none _ Pe) as [Ce We].
  rewrite !List.filter_app, !length_app, !forallb_app, Cl, Cn, Ce, Wl, Wn, We.
  done.
Qed.

Lemma isValidEmail_shape_witness :
  length (List.filter (N.eqb 64) (u "owner@farm.example.in")) = 1%nat
  /\ forallb (fun c => negb (isWhiteSpace c)) (u "owner@farm.example.in")
     = true.
Proof.
  apply (proj2 (isValidEmail_shape (u "owner@farm.example.in"))).
  reflexivity.
Defined.

(** ** sanitizeInput *)

Lemma removeFolded_sub (pattern : ustring) (skip : nat) (s : ustring) :
  (forall c, In c (removeFolded pattern skip s) -> In c s)
  /\ (length (removeFolded pattern skip s) <= length s)%nat.
Proof.
  revert skip. induction s as [|c s IH]; intros skip; [done|].
  cbn [removeFolded]. destruct skip as [|k].
  - destruct (startsWithFolded pattern (c :: s)).
    + destruct (IH (length pattern - 1)%nat) as [Hin Hlen]. split.
      * intros x Hx. right. by apply Hin.
      * simpl. lia.
    + destruct (IH 0%nat) as [Hin Hlen]. split.
      * intros x [->|Hx]; [by left|right; by apply Hin].
      * simpl. lia.
  - destruct (IH k) as [Hin Hlen]. split.
    + intros x Hx. right. by apply Hin.
    + simpl. lia.
Qed.

Lemma trimStart_In (s : ustring) (c : N) : In c (trimStart s) -> In c s.
Proof.
  destruct (trimStart_suffix s) as (ws & Hs & _). intros H.
  rewrite Hs. apply in_app_iff. by right.
Qed.

Lemma trim_In (s : ustring) (c : N) : In c (trim s) -> In c s.
Proof.
  unfold trim, trimEnd. intros H. apply in_rev in H.
  apply trimStart_In in H. apply in_rev in H. by apply trimStart_In.
Qed.

Lemma trimStart_snoc (l : ustring) (c : N) :
  isWhiteSpace c = false -> trimStart (l ++ [c]) = trimStart l ++ [c].
Proof.
  intros Hc. induction l as [|d l IH]; simpl; [by rewrite Hc|].
  by destruct (isWhiteSpace d).
Qed.

(** A trimmed string neither starts nor ends with white space. *)
Lemma trim_ends (s : ustring) :
  (forall c rest, trim s = c :: rest -> isWhiteSpace c = false)
  /\ (forall pre c, trim s = pre ++ [c] -> isWhiteSpace c = false).
Proof.
  unfold trim, trimEnd. split.
  - intros c rest H.
    destruct (trimStart s) as [|c0 t] eqn:E; [done|].
    apply trimStart_head in E as Hc0.
    simpl in H. rewrite trimStart_snoc in H by done.
    rewrite rev_app_distr in H. simpl in H. by injection H as <- _.
  - intros pre c H. apply (f_equal (@rev N)) in H.
    rewrite rev_involutive, rev_app_distr in H. simpl in H.
    by apply trimStart_head in H.
Qed.

Lemma trim_fixed (s : ustring) :
  (forall c rest, s = c :: rest -> isWhiteSpace c = false) ->
  (forall pre c, s = pre ++ [c] -> isWhiteSpace c = false) ->
  trim s = s.
Proof.
  intros Hhead Hlast.
  assert (Hs : forall t : ustring,
             (forall c rest, t = c :: rest -> isWhiteSpace c = false) ->
             trimStart t = t).
  { intros [|c t] H; [done|]. simpl. by rewrite (H c t). }
  unfold trim, trimEnd. rewrite (Hs s Hhead), Hs; [apply rev_involutive|].
  intros c rest H. apply (Hlast (rev rest) c).
  apply (f_equal (@rev N)) in H. by rewrite rev_involutive in H.
Qed.

(** X23: Whatever the input, the sanitized string holds no angle bracket,
    neither starts nor ends with white space, and is made of code units of
    the input, no more of them than the input had. *)
Theorem sanitizeInput_clean (input : ustring) :
  let output := sanitizeInput input in
  ~ In 60%N output /\ ~ In 62%N output
  /\ (forall c rest, output = c :: rest -> isWhiteSpace c = false)
  /\ (forall pre c, output = pre ++ [c] -> isWhiteSpace c = false)
  /\ (forall c, In c output -> In c input)
  /\ (length output <= length input)%nat.
Proof.
  cbv zeta. unfold sanitizeInput.
  destruct input as [|c0 input]; [by split_and!; try done; intros []|].
  cbn [nonEmpty negb].
  set (kept := List.filter _ (c0 :: input)).
  assert (Hkept : forall c, In c (trim (removeFolded javascriptScheme 0 kept))
                            -> In c kept).
  { intros c H. apply trim_In in H. by apply removeFolded_sub in H. }
  split_and!.
  - intros H. apply Hkept, filter_In in H as [_ H]. done.
  - intros H. apply Hkept, filter_In in H as [_ H]. done.
  - apply trim_ends.
  - apply trim_ends.
  - intros c H. by apply Hkept, filter_In in H as [H _].
  - etransitivity; [apply trim_length|].
    etransitivity; [apply removeFolded_sub|]. apply List.filter_length_le.
Qed.

Lemma sanitizeInput_clean_witness :
  let output := sanitizeInput (u "  <b>hi</b> JavaScript:alert(1) ") in
  output = u "bhi/b alert(1)"
  /\ forall c rest, output = c :: rest -> isWhiteSpace c = false.
Proof.
  split; [reflexivity|].
  exact (proj1 (proj2 (proj2 (sanitizeInput_clean
           (u "  <b>hi</b> JavaScript:alert(1) "))))).
Defined.

(** X24: An input without angle brackets, without any occurrence of
    [javascript:] in any letter case, and without white space at either
    end comes out as it went in. *)
Theorem sanitizeInput_identity (input : ustring) :
  ~ In 60%N input -> ~ In 62%N input ->
  (forall pre post,
      input = pre ++ post -> startsWithFolded javascriptScheme post = false) ->
  (forall c rest, input = c :: rest -> isWhiteSpace c = false) ->
  (forall pre c, input = pre ++ [c] -> isWhiteSpace c = false) ->
  sanitizeInput input = input.
Proof.
  intros H60 H62 Hocc Hhead Hlast. unfold sanitizeInput.
  destruct input as [|c0 input]; [done|]. cbn [nonEmpty negb].
  assert (Hf : List.filter (fun c => negb ((c =? 60)%N || (c =? 62)%N))
                 (c0 :: input) = c0 :: input).
  { apply forallb_filter_id. apply forallb_forall. intros c Hc.
    apply negb_true_iff, orb_false_iff. split; apply N.eqb_neq;
      intros ->; done. }
  rewrite Hf.
  assert (Hr : forall s : ustring,
             (forall pre post, s = pre ++ post ->
                startsWithFolded javascriptScheme post = false) ->
             removeFolded javascriptScheme 0 s = s).
  { induction s as [|c s IH]; intros Hs; [done|]. cbn [removeFolded].
    rewrite (Hs [] (c :: s)) by done. f_equal. apply IH.
    intros pre post ->. by apply (Hs (c :: pre) post). }
  rewrite Hr by done. by apply trim_fixed.
Qed.

Lemma sanitizeInput_identity_witness :
  sanitizeInput (u "Hi!") = u "Hi!".
Proof.
  apply sanitizeInput_identity.
  - intros H. by repeat (destruct H as [H|H]; [discriminate H|]).
  - intros H. by repeat (destruct H as [H|H]; [discriminate H|]).
  - intros pre post H.
    destruct pre as [|a [|b [|c [|d pre]]]]; simpl in H.
    + by rewrite <- H.
    + injection H as _ <-. reflexivity.
    + injection H as _ _ <-. reflexivity.
    + injection H as _ _ _ <-. reflexivity.
    + discriminate H.
  - intros c rest [= <- _]. reflexivity.
  - intros pre c H.
    destruct pre as [|a [|b [|d pre]]]; simpl in H.
    + discriminate H.
    + discriminate H.
    + injection H as _ _ <-. reflexivity.
    + injection H as _ _ _ H. by destruct pre.
Defined.

(** X25: The removal of [javascript:] is a single pass from left to right: when
    the scheme is written inside itself, split at any place, removing the
    inner one leaves the outer one, and the sanitized string is
    [javascript:] again. *)
Theorem sanitizeInput_single_pass (k : nat) :
  (0 < k < length javascriptScheme)%nat ->
  sanitizeInput
    (take k javascriptScheme ++ javascriptScheme ++ drop k javascriptScheme)
  = javascriptScheme.
Proof.
  intros [Hlo Hhi]. change (length javascriptScheme) with 11%nat in Hhi.
  do 11 (destruct k as [|k]; [first [lia | by vm_compute]|]). lia.
Qed.

Lemma sanitizeInput_single_pass_witness :
  sanitizeInput (u "javajavascript:script:") = u "javascript:".
Proof.
  apply (sanitizeInput_single_pass 4). vm_compute. lia.
Defined.

Lemma csv_line_round_trip_witness :
  readLine ExpectField [] []
    (csvLine ustring id [u "Green Acres, Pune"; [34; 65; 34]%N])
  = Some [u "Green Acres, Pune"; [34; 65; 34]%N].
Proof.
  exact (proj1 (csv_line_round_trip (cell:=ustring) id
                  [u "Green Acres, Pune"; [34; 65; 34]%N])).
Defined.
